(** * afinasql-db-driver: a shallow embedding of src/index.js

    The driver sits between an application and an Oracle connection pool.
    Everything it does is a sequence of calls to collaborators that are not
    part of the repository (the oracledb pool and its connections, the
    crypto module's random bytes).  The embedding therefore

    - keeps the driver object as a record ([Driver]),
    - records every call made to a collaborator in a trace ([Event]),
    - takes the collaborators' answers from an arbitrary [World], a family
      of functions of the history so far, and
    - writes the async methods in a small state-and-error monad whose
      [try_finally] and [try_catch] follow the JavaScript semantics.

    One call is modelled at a time: [await] is sequencing, and no other
    call of the driver interleaves with the one under study. *)

From Stdlib.Strings Require Import Byte.
From Stdlib Require Import Ascii String List ZArith Lia.
From stdpp Require Import base option list gmap strings.
Import ListNotations.

Local Open Scope string_scope.
Local Open Scope Z_scope.

(** ** JavaScript values that travel through the driver *)

(** Bind values, configuration entries and result cells are data: the
    embedding has no function values. *)
Inductive jsval : Type :=
  | JUndefined
  | JNull
  | JBool (b : bool)
  | JNum (n : Z)
  | JStr (s : string).

(** [!v] is [negb (truthy v)]. *)
Definition truthy (v : jsval) : bool :=
  match v with
  | JUndefined | JNull => false
  | JBool b => b
  | JNum n => negb (n =? 0)
  | JStr s => negb (String.eqb s EmptyString)
  end.

(** Conversion done by a template literal [`${v}`]. *)
Definition digit_char (n : nat) : ascii :=
  match n with
  | 0%nat => "0" | 1%nat => "1" | 2%nat => "2" | 3%nat => "3" | 4%nat => "4"
  | 5%nat => "5" | 6%nat => "6" | 7%nat => "7" | 8%nat => "8" | _ => "9"
  end%char.

Fixpoint nat_digits (fuel n : nat) (acc : string) : string :=
  match fuel with
  | O => acc
  | S fuel' =>
      let acc' := String (digit_char (n mod 10)) acc in
      match (n / 10)%nat with
      | O => acc'
      | q => nat_digits fuel' q acc'
      end
  end.

Definition Z_to_string (z : Z) : string :=
  match z with
  | Z0 => "0"
  | Zpos p => nat_digits (Pos.to_nat p) (Pos.to_nat p) EmptyString
  | Zneg p => "-" ++ nat_digits (Pos.to_nat p) (Pos.to_nat p) EmptyString
  end.

Definition to_template_string (v : jsval) : string :=
  match v with
  | JUndefined => "undefined"
  | JNull => "null"
  | JBool true => "true"
  | JBool false => "false"
  | JNum n => Z_to_string n
  | JStr s => s
  end.

(** Errors a call can be rejected with. *)
Inductive Error : Type :=
  | TypeError (msg : string)          (* raised by the JavaScript runtime *)
  | Thrown (s : string)               (* [throw '...'] in the driver *)
  | DbError (code : Z) (msg : string) (* rejection coming from oracledb *).

Inductive result (A : Type) : Type :=
  | Ok (a : A)
  | Err (e : Error).
Arguments Ok {A} a.
Arguments Err {A} e.

(** ** OraSqlParam and OraSqlParams *)

Inductive BindDir : Type := BIND_IN | BIND_OUT | BIND_INOUT.
Inductive DbType : Type := NUMBER | STRING | DATE | CLOB.

(** The own properties of an [OraSqlParam] instance.  [val] is [None]
    while the instance has no own property of that name, in which case a
    lookup of [val] finds the method on the prototype. *)
Record OraSqlParam : Type := mkParam {
  dir : option BindDir;
  type : option DbType;
  maxSize : option Z;
  val : option jsval
}.

(** [new OraSqlParam()] *)
Definition new_OraSqlParam : OraSqlParam := mkParam None None None None.

Definition dirIn (this : OraSqlParam) : OraSqlParam :=
  mkParam (Some BIND_IN) (type this) (maxSize this) (val this).
Definition dirOut (this : OraSqlParam) : OraSqlParam :=
  mkParam (Some BIND_OUT) (type this) (maxSize this) (val this).
Definition dirInOut (this : OraSqlParam) : OraSqlParam :=
  mkParam (Some BIND_INOUT) (type this) (maxSize this) (val this).
Definition typeNumber (this : OraSqlParam) : OraSqlParam :=
  mkParam (dir this) (Some NUMBER) (maxSize this) (val this).
(** [typeString(maxSize)]: [if (maxSize) this.maxSize = maxSize]; the
    argument is a number or absent. *)
Definition typeString (size : option Z) (this : OraSqlParam) : OraSqlParam :=
  mkParam (dir this) (Some STRING)
    (match size with
     | Some n => if n =? 0 then maxSize this else Some n
     | None => maxSize this
     end)
    (val this).
Definition typeDate (this : OraSqlParam) : OraSqlParam :=
  mkParam (dir this) (Some DATE) (maxSize this) (val this).
Definition typeClob (this : OraSqlParam) : OraSqlParam :=
  mkParam (dir this) (Some CLOB) (maxSize this) (val this).

(** The body of the prototype's method: [this.val = value; return this]. *)
Definition val_method (value : jsval) (this : OraSqlParam) : OraSqlParam :=
  mkParam (dir this) (type this) (maxSize this) (Some value).

(** The call expression [this.val(value)].  The callee is looked up
    first: an own property shadows the prototype's method, and a data
    value is not callable. *)
Definition call_val (value : jsval) (this : OraSqlParam) : result OraSqlParam :=
  match val this with
  | None => Ok (val_method value this)
  | Some _ => Err (TypeError "val is not a function")
  end.

(** [_.set(object, name, value)] of lodash for a name that is a plain
    key.  A name with path syntax (a dot or square brackets) would address
    a nested object; the driver itself only uses the plain keys below. *)
Definition plain_key_char (c : ascii) : bool :=
  negb (Ascii.eqb c "."%char || Ascii.eqb c "["%char || Ascii.eqb c "]"%char).

Fixpoint plain_key (s : string) : bool :=
  match s with
  | EmptyString => true
  | String c s' => plain_key_char c && plain_key s'
  end.

Definition lodash_set {V : Type} (object : gmap string V) (name : string) (value : V)
  : gmap string V :=
  <[name := value]> object.

(** An [OraSqlParams] instance: its own properties, by name. *)
Abbreviation OraSqlParams := (gmap string OraSqlParam).

Definition new_OraSqlParams : OraSqlParams := ∅.

(** [add(name)] stores a fresh descriptor under [name] and returns it:
    the result is the updated collection together with the returned
    descriptor. *)
Definition add (name : string) (this : OraSqlParams) : OraSqlParams * OraSqlParam :=
  let param := new_OraSqlParam in
  (lodash_set this name param, param).

(** The descriptor returned by [add] is the very object stored in the
    collection.  Calls chained on it ([.dirIn().typeString().val(x)])
    mutate that object, so their effect is written through to the entry
    under [name]; a call that throws ends the whole expression. *)
Definition chained (name : string) (chain : OraSqlParam -> result OraSqlParam)
    (r : OraSqlParams * OraSqlParam) : result OraSqlParams :=
  match chain (snd r) with
  | Ok param => Ok (<[name := param]> (fst r))
  | Err e => Err e
  end.

(** ** The collaborators *)

(** [Buffer.toString('hex')]: two lowercase digits per byte, high nibble
    first. *)
Definition hex_digit (n : N) : ascii :=
  match n with
  | 0 => "0" | 1 => "1" | 2 => "2" | 3 => "3" | 4 => "4" | 5 => "5"
  | 6 => "6" | 7 => "7" | 8 => "8" | 9 => "9" | 10 => "a" | 11 => "b"
  | 12 => "c" | 13 => "d" | 14 => "e" | _ => "f"
  end%N%char.

Definition hex_of_byte (b : byte) (rest : string) : string :=
  let n := Byte.to_N b in
  String (hex_digit (n / 16)) (String (hex_digit (n mod 16)) rest).

Fixpoint toString_hex (buf : list byte) : string :=
  match buf with
  | [] => EmptyString
  | b :: buf' => hex_of_byte b (toString_hex buf')
  end.

Abbreviation ConnId := nat.
Abbreviation PoolId := nat.
Abbreviation Row := (gmap string jsval).
Abbreviation ExecOptions := (gmap string jsval).

(** The bind argument of [connection.execute]: an array of values or an
    object of named descriptors ([{}] is [Named ∅]). *)
Inductive Binds : Type :=
  | Positional (values : list jsval)
  | Named (params : OraSqlParams).

(** The result object of [connection.execute]; a property the statement
    does not produce is absent. *)
Record ExecResult : Type := mkExecResult {
  rows : option (list Row);
  outBinds : option (gmap string jsval);
  rowsAffected : option Z
}.

(** Calls that leave the driver, in the order they are made. *)
Inductive Event : Type :=
  | EvRandomBytes (size : nat)
  | EvCreatePool (user password connectString : jsval)
  | EvGetConnection (pool : PoolId)
  | EvExecute (conn : ConnId) (sql : string) (binds : option Binds)
      (options : option ExecOptions)
  | EvClose (conn : ConnId)
  | EvTerminate (pool : PoolId).

(** What the collaborators answer.  Each answer may depend on everything
    that happened before the call (its first argument) and on the call's
    own arguments.  Every call other than [randomBytes] may be rejected. *)
Record World : Type := mkWorld {
  random_byte : list Event -> nat -> byte;
  createPool_out : list Event -> jsval -> jsval -> jsval -> result PoolId;
  getConnection_out : list Event -> PoolId -> result ConnId;
  execute_out : list Event -> ConnId -> string -> option Binds ->
                option ExecOptions -> result ExecResult;
  close_out : list Event -> ConnId -> result unit;
  terminate_out : list Event -> PoolId -> result unit
}.

(** The buffer [randomBytes(size)] returns after history [h]: [size]
    bytes, each one the world's choice. *)
Definition random_buffer (w : World) (h : list Event) (size : nat) : list byte :=
  List.map (random_byte w h) (seq 0 size).

(** ** The driver object *)

Inductive OutFormat : Type := ARRAY | OBJECT.

(** The settings the constructor writes on the oracledb module. *)
Record OciSettings : Type := mkOci {
  outFormat : OutFormat;
  maxRows : Z;
  fetchAsString : list DbType
}.

Record Driver : Type := mkDriver {
  _db : OciSettings;
  _implementation : string;
  _isOpened : bool;
  _dbUser : jsval;
  _dbPassword : jsval;
  _dbConnectionString : jsval;
  _dbSchema : jsval;
  _browser : string;
  _pool : option PoolId
}.

(** The [config] argument of the constructor; a missing entry is
    [JUndefined]. *)
Record Config : Type := mkConfig {
  username : jsval;
  password : jsval;
  connectString : jsval;
  schema : jsval
}.

Definition constructor (config : Config) : Driver :=
  {| _db := mkOci OBJECT 10000 [CLOB];
     _implementation := "AdminOnline";
     _isOpened := false;
     _dbUser := username config;
     _dbPassword := password config;
     _dbConnectionString := connectString config;
     _dbSchema := schema config;
     _browser := "Afina Oracle Driver";
     _pool := None |}.

Definition isOpened (this : Driver) : bool := _isOpened this.

Definition set_pool (p : PoolId) (d : Driver) : Driver :=
  mkDriver (_db d) (_implementation d) (_isOpened d) (_dbUser d) (_dbPassword d)
    (_dbConnectionString d) (_dbSchema d) (_browser d) (Some p).

Definition set_isOpened (b : bool) (d : Driver) : Driver :=
  mkDriver (_db d) (_implementation d) b (_dbUser d) (_dbPassword d)
    (_dbConnectionString d) (_dbSchema d) (_browser d) (_pool d).

(** ** State, errors and the control operators *)

Record St : Type := mkSt {
  this : Driver;
  trace : list Event
}.

Definition M (A : Type) : Type := St -> result A * St.

Definition ret {A} (a : A) : M A := fun s => (Ok a, s).

Definition throw {A} (e : Error) : M A := fun s => (Err e, s).

Definition bind {A B} (m : M A) (k : A -> M B) : M B :=
  fun s =>
    match m s with
    | (Ok a, s') => k a s'
    | (Err e, s') => (Err e, s')
    end.

Notation "x <- m ;; k" := (bind m (fun x => k))
  (at level 100, m at next level, right associativity).
Notation "m ;;; k" := (bind m (fun _ => k))
  (at level 100, right associativity).

Definition lift {A} (r : result A) : M A := fun s => (r, s).

Definition get_this : M Driver := fun s => (Ok (this s), s).

Definition update_this (f : Driver -> Driver) : M unit :=
  fun s => (Ok tt, mkSt (f (this s)) (trace s)).

Definition when (b : bool) (m : M unit) : M unit := if b then m else ret tt.

(** [try { body } finally { fin }]: [fin] always runs; when it throws,
    its exception is the outcome, otherwise the outcome of [body] is. *)
Definition try_finally {A} (body : M A) (fin : M unit) : M A :=
  fun s =>
    let (r, s1) := body s in
    match fin s1 with
    | (Ok _, s2) => (r, s2)
    | (Err e, s2) => (Err e, s2)
    end.

(** [try { body } catch (e) { handler }] *)
Definition try_catch {A} (body : M A) (handler : Error -> M A) : M A :=
  fun s =>
    match body s with
    | (Ok a, s1) => (Ok a, s1)
    | (Err e, s1) => handler e s1
    end.

(** A call to a collaborator: it is recorded, and the world answers from
    the history before the call. *)
Definition external {A} (ev : Event) (answer : list Event -> result A) : M A :=
  fun s => (answer (trace s), mkSt (this s) (trace s ++ [ev])).

(** ** Statement texts *)

Definition nl : string := String "010"%char EmptyString.

Fixpoint join_lines (lines : list string) : string :=
  match lines with
  | [] => EmptyString
  | [l] => l
  | l :: rest => l ++ nl ++ join_lines rest
  end.

(** A parameter default [x = d] replaces an argument that is [undefined]. *)
Definition default_arg (d v : jsval) : jsval :=
  match v with
  | JUndefined => d
  | _ => v
  end.

Definition sqlLogon (aOldPackageSession : jsval) : string :=
  join_lines
    [ "begin";
      "               PKG_SESSION.LOGON_WEB(SCONNECT        => :SCONNECT,";
      "                                     SUTILIZER       => :SUTILIZER,";
      "                                     SPASSWORD       => :SPASSWORD,";
      "                                     SIMPLEMENTATION => :SIMPLEMENTATION,";
      "                                     SAPPLICATION    => :SAPPLICATION,";
      "                                     SCOMPANY        => :SCOMPANY,";
      "                                     " ++
        (if negb (truthy aOldPackageSession)
         then "SBROWSER        => :SBROWSER,"
         else EmptyString);
      "                                     SLANGUAGE       => :SLANGUAGE);";
      "             end;" ].

Definition sqlInfo : string :=
  join_lines
    [ "select ";
      "                PKG_SESSION.GET_COMPANY(0) as NCOMPANY, ";
      "                PKG_SESSION.GET_UTILIZER_NAME() as SFULLUSERNAME, ";
      "                PKG_SESSION.GET_APPLICATION_NAME(0) as SAPPNAME, ";
      "                PKG_SESSION.GET_COMPANY_FULLNAME(0) as SCOMPANYFULLNAME ";
      "            from dual" ].

Definition sqlSchema (d : Driver) : string :=
  "alter session set CURRENT_SCHEMA = " ++ to_template_string (_dbSchema d).

Definition sqlValidate : string :=
  "begin PKG_SESSION.VALIDATE_WEB(SCONNECT => :SCONNECT); end;".

Definition sqlLogoff : string :=
  "begin PKG_SESSION.LOGOFF_WEB(SCONNECT => :SCONNECT); end;".

(** [paramsLogin.add(name).val(value)] *)
Definition add_val (name : string) (value : jsval) (params : OraSqlParams)
  : result OraSqlParams :=
  chained name (call_val value) (add name params).

Definition and_then {A B} (r : result A) (k : A -> result B) : result B :=
  match r with
  | Ok a => k a
  | Err e => Err e
  end.

(** The bind collection [logon] builds, statement by statement. *)
Definition paramsLogin (d : Driver) (lSessionId : string)
    (aAfinaUser aAfinaWebPassword aAfinaCompany aAfinaApplication
     aAfinaInterfaceLanguage aOldPackageSession : jsval) : result OraSqlParams :=
  and_then (add_val "SCONNECT" (JStr lSessionId) new_OraSqlParams) (fun p =>
  and_then (add_val "SUTILIZER" aAfinaUser p) (fun p =>
  and_then (add_val "SPASSWORD" aAfinaWebPassword p) (fun p =>
  and_then (add_val "SIMPLEMENTATION" (JStr (_implementation d)) p) (fun p =>
  and_then (add_val "SAPPLICATION" aAfinaApplication p) (fun p =>
  and_then (add_val "SCOMPANY" aAfinaCompany p) (fun p =>
  and_then (add_val "SLANGUAGE" aAfinaInterfaceLanguage p) (fun p =>
  if negb (truthy aOldPackageSession)
  then add_val "SBROWSER" (JStr (_browser d)) p
  else Ok p))))))).

(** ** The methods of AfinaSqlDbDriver *)

Section Methods.

Variable w : World.

(** [require('crypto').randomBytes(size)] *)
Definition randomBytes (size : nat) : M (list byte) :=
  external (EvRandomBytes size) (fun h => Ok (random_buffer w h size)).

(** [this._db.createPool({user, password, connectString})] *)
Definition createPool (user pass connStr : jsval) : M PoolId :=
  external (EvCreatePool user pass connStr)
    (fun h => createPool_out w h user pass connStr).

(** [this._pool.getConnection()]; reading a property of [undefined]
    throws. *)
Definition pool_getConnection : M ConnId :=
  d <- get_this ;;
  match _pool d with
  | None => throw (TypeError "Cannot read property 'getConnection' of undefined")
  | Some p => external (EvGetConnection p) (fun h => getConnection_out w h p)
  end.

(** [this._pool.terminate()] *)
Definition pool_terminate : M unit :=
  d <- get_this ;;
  match _pool d with
  | None => throw (TypeError "Cannot read property 'terminate' of undefined")
  | Some p => external (EvTerminate p) (fun h => terminate_out w h p)
  end.

(** [lConnection.execute(sql, binds, options)]; an argument left out is
    [None]. *)
Definition conn_execute (c : ConnId) (sql : string) (binds : option Binds)
    (options : option ExecOptions) : M ExecResult :=
  external (EvExecute c sql binds options)
    (fun h => execute_out w h c sql binds options).

(** [lConnection.close()] *)
Definition conn_close (c : ConnId) : M unit :=
  external (EvClose c) (fun h => close_out w h c).

Definition open : M unit :=
  d <- get_this ;;
  when (negb (_isOpened d))
    (if negb (truthy (_dbUser d))
     then throw (Thrown "You must set user's name before open database")
     else if negb (truthy (_dbConnectionString d))
     then throw (Thrown "You must set connect string before open database")
     else
       (p <- createPool (_dbUser d) (_dbPassword d) (_dbConnectionString d) ;;
        update_this (set_pool p) ;;;
        update_this (set_isOpened true))).

Definition close : M unit :=
  pool_terminate ;;;
  update_this (set_isOpened false).

Definition getConnection (aSessionId : jsval) : M ConnId :=
  d <- get_this ;;
  when (negb (_isOpened d)) open ;;;
  lConnection <- pool_getConnection ;;
  d <- get_this ;;
  conn_execute lConnection (sqlSchema d) None None ;;;
  conn_execute lConnection sqlValidate (Some (Positional [aSessionId])) None ;;;
  ret lConnection.

(** [aBindParams = []] and [aExecuteOptions = {}] stand in for arguments
    left out; [aConnection] is a connection object or [null]. *)
Definition execute (aSessionId : jsval) (aSql : string)
    (aBindParams : option Binds) (aExecuteOptions : option ExecOptions)
    (aConnection : option ConnId) : M ExecResult :=
  let aBindParams := default (Positional []) aBindParams in
  let aExecuteOptions := default ∅ aExecuteOptions in
  lConnection <- match aConnection with
                 | Some c => ret c
                 | None => getConnection aSessionId
                 end ;;
  try_finally
    (conn_execute lConnection aSql (Some aBindParams) (Some aExecuteOptions))
    (match aConnection with
     | Some _ => ret tt
     | None => conn_close lConnection
     end).

(** [result.rows[0]]: indexing [undefined] throws, an empty array gives
    [undefined] ([None]). *)
Definition rows_0 (r : ExecResult) : M (option Row) :=
  match rows r with
  | None => throw (TypeError "Cannot read property '0' of undefined")
  | Some rs => ret (head rs)
  end.

(** [_.set(resultInfo, 'sessionID', value)] leaves [undefined] alone. *)
Definition set_sessionID (resultInfo : option Row) (value : jsval) : option Row :=
  match resultInfo with
  | None => None
  | Some row => Some (lodash_set row "sessionID" value)
  end.

Definition logon (aAfinaUser aAfinaWebPassword aAfinaCompany aAfinaApplication
    aAfinaInterfaceLanguage aOldPackageSession : jsval) : M (option Row) :=
  let aOldPackageSession := default_arg (JBool false) aOldPackageSession in
  buf <- randomBytes 24 ;;
  let lSessionId := toString_hex buf in
  d <- get_this ;;
  params <- lift (paramsLogin d lSessionId aAfinaUser aAfinaWebPassword
                    aAfinaCompany aAfinaApplication aAfinaInterfaceLanguage
                    aOldPackageSession) ;;
  when (negb (_isOpened d)) open ;;;
  lConnection <- pool_getConnection ;;
  d <- get_this ;;
  conn_execute lConnection (sqlSchema d) None None ;;;
  try_finally
    (conn_execute lConnection (sqlLogon aOldPackageSession)
       (Some (Named params)) (Some ∅) ;;;
     r <- conn_execute lConnection sqlInfo (Some (Named ∅)) (Some ∅) ;;
     resultInfo <- rows_0 r ;;
     ret (set_sessionID resultInfo (JStr lSessionId)))
    (conn_close lConnection).

Definition logoff (aSessionId : jsval) : M Z :=
  try_catch
    (execute aSessionId sqlLogoff (Some (Positional [aSessionId])) None None ;;;
     ret 0)
    (fun e => ret (-1)).

End Methods.

(** ** Observations on traces and strings *)

(** Number of [close()] calls on connection [c] in a run of events. *)
Fixpoint closes (c : ConnId) (evs : list Event) : nat :=
  match evs with
  | [] => 0
  | EvClose c' :: evs' => (if Nat.eqb c c' then 1 else 0) + closes c evs'
  | _ :: evs' => closes c evs'
  end.

(** Number of [close()] calls on any connection. *)
Fixpoint all_closes (evs : list Event) : nat :=
  match evs with
  | [] => 0
  | EvClose _ :: evs' => S (all_closes evs')
  | _ :: evs' => all_closes evs'
  end.

Fixpoint pool_creations (evs : list Event) : nat :=
  match evs with
  | [] => 0
  | EvCreatePool _ _ _ :: evs' => S (pool_creations evs')
  | _ :: evs' => pool_creations evs'
  end.

Fixpoint token_generations (evs : list Event) : nat :=
  match evs with
  | [] => 0
  | EvRandomBytes _ :: evs' => S (token_generations evs')
  | _ :: evs' => token_generations evs'
  end.

(** The events a call added: the trace after it, without the trace
    before it. *)
Definition new_events (before after : St) : list Event :=
  drop (length (trace before)) (trace after).

Definition lower_hex_char (c : ascii) : bool :=
  let n := nat_of_ascii c in
  ((48 <=? n) && (n <=? 57) || (97 <=? n) && (n <=? 102))%nat.

Fixpoint lower_hex (s : string) : bool :=
  match s with
  | EmptyString => true
  | String c s' => lower_hex_char c && lower_hex s'
  end.

(** [contains needle hay]: [needle] occurs in [hay] as a substring. *)
Fixpoint contains (needle hay : string) : bool :=
  String.prefix needle hay ||
  match hay with
  | EmptyString => false
  | String _ hay' => contains needle hay'
  end.

(** The event of the session-validation statement of [getConnection]. *)
Definition validate_event (c : ConnId) (aSessionId : jsval) : Event :=
  EvExecute c sqlValidate (Some (Positional [aSessionId])) None.

(** ** Concrete collaborators used in the examples *)

Definition no_result : ExecResult := mkExecResult None None None.

Definition one_row : ExecResult :=
  mkExecResult
    (Some [ {[ "NCOMPANY" := JNum 42; "SFULLUSERNAME" := JStr "U1";
               "SAPPNAME" := JStr "Admin"; "SCOMPANYFULLNAME" := JStr "C1" ]} ])
    None None.

Definition sample_byte (i : nat) : byte :=
  match Byte.of_N (N.of_nat (i * 37 + 11) mod 256) with
  | Some b => b
  | None => x00
  end.

(** A world in which pool 1 hands out connection 7, statements are
    answered by [stmt] from their text, and [close] and [terminate] are
    answered by [rel] and [term]. *)
Definition scripted (stmt : string -> result ExecResult) (rel term : result unit)
  : World :=
  {| random_byte := fun _ i => sample_byte i;
     createPool_out := fun _ _ _ _ => Ok 1%nat;
     getConnection_out := fun _ _ => Ok 7%nat;
     execute_out := fun _ _ sql _ _ => stmt sql;
     close_out := fun _ _ => rel;
     terminate_out := fun _ _ => term |}.

Definition sample_config : Config :=
  mkConfig (JStr "scott") (JStr "tiger") (JStr "ORCL") (JStr "PARUS").

Definition fresh_driver : St := mkSt (constructor sample_config) [].

Definition ORA_00942 : Error := DbError 942 "table or view does not exist".
Definition DPI_1010 : Error := DbError 1010 "not connected".
Definition ORA_01435 : Error := DbError 1435 "user does not exist".

(** Every statement succeeds; the informational query returns one row. *)
Definition healthy : World :=
  scripted (fun sql => if String.eqb sql sqlInfo then Ok one_row else Ok no_result)
    (Ok tt) (Ok tt).

(** The caller's statement is rejected and so is the release. *)
Definition failing_release : World :=
  scripted (fun sql => if String.eqb sql "select * from v_companies"
                       then Err ORA_00942 else Ok no_result)
    (Err DPI_1010) (Ok tt).

(** The schema switch is rejected. *)
Definition failing_schema_switch : World :=
  scripted (fun sql => if String.prefix "alter session" sql
                       then Err ORA_01435 else Ok no_result)
    (Ok tt) (Ok tt).

(** The server does not know the session token. *)
Definition ORA_20001 : Error := DbError 20001 "session not found".

Definition unknown_token : World :=
  scripted (fun sql => if String.eqb sql sqlValidate
                       then Err ORA_20001 else Ok no_result)
    (Ok tt) (Ok tt).

(** ** Further observations and collaborators *)

(** Number of calls to the pool's [getConnection()], answered or
    rejected. *)
Fixpoint leases (evs : list Event) : nat :=
  match evs with
  | [] => 0
  | EvGetConnection _ :: evs' => S (leases evs')
  | _ :: evs' => leases evs'
  end.

(** Number of [terminate()] calls. *)
Fixpoint terminations (evs : list Event) : nat :=
  match evs with
  | [] => 0
  | EvTerminate _ :: evs' => S (terminations evs')
  | _ :: evs' => terminations evs'
  end.

(** The flag [_isOpened] is backed by a pool handle. *)
Definition pool_consistent (d : Driver) : bool :=
  negb (_isOpened d) || match _pool d with Some _ => true | None => false end.

(** Everything the constructor sets apart from [_isOpened] and [_pool]. *)
Definition settings (d : Driver)
  : OciSettings * string * jsval * jsval * jsval * jsval * string :=
  (_db d, _implementation d, _dbUser d, _dbPassword d, _dbConnectionString d,
   _dbSchema d, _browser d).

(** The three things a method can do to the driver object: nothing,
    store a new pool and raise the flag, or lower the flag. *)
Definition only_flag_and_pool (d d' : Driver) : Prop :=
  d' = d
  \/ (exists p, d' = set_isOpened true (set_pool p d))
  \/ d' = set_isOpened false d.

(** Names under which [add(name)] must not store a descriptor for the
    collection to go on working as a plain map: an own property [add]
    hides the method, and [_.set] refuses or special-cases the three
    prototype names. *)
Definition reserved_names : list string :=
  ["add"; "__proto__"; "constructor"; "prototype"].

(** A name [_.set] takes as one key and that is none of the above. *)
Definition ordinary_name (name : string) : bool :=
  plain_key name && negb (existsb (String.eqb name) reserved_names).

(** The setters of [OraSqlParam], by the property they write. *)
Definition dir_setters : list (OraSqlParam -> OraSqlParam) :=
  [dirIn; dirOut; dirInOut].

Definition type_setters (size : option Z) : list (OraSqlParam -> OraSqlParam) :=
  [typeNumber; typeString size; typeDate; typeClob].

Definition ORA_12541 : Error := DbError 12541 "no listener".
Definition ORA_20103 : Error := DbError 20103 "wrong user name or password".

(** The listener is down: no pool can be created. *)
Definition no_listener : World :=
  {| random_byte := fun _ i => sample_byte i;
     createPool_out := fun _ _ _ _ => Err ORA_12541;
     getConnection_out := fun _ _ => Ok 7%nat;
     execute_out := fun _ _ _ _ _ => Ok no_result;
     close_out := fun _ _ => Ok tt;
     terminate_out := fun _ _ => Ok tt |}.

(** The logon statement is rejected. *)
Definition bad_credentials : World :=
  scripted (fun sql => if contains "PKG_SESSION.LOGON_WEB" sql
                       then Err ORA_20103
                       else if String.eqb sql sqlInfo then Ok one_row
                       else Ok no_result)
    (Ok tt) (Ok tt).

(** Every statement succeeds, but no result carries rows. *)
Definition rowless : World :=
  scripted (fun _ => Ok no_result) (Ok tt) (Ok tt).

(** The informational query returns an empty row set. *)
Definition empty_rows : World :=
  scripted (fun sql => if String.eqb sql sqlInfo
                       then Ok (mkExecResult (Some []) None None)
                       else Ok no_result)
    (Ok tt) (Ok tt).

(** The sample driver after a successful [open()]. *)
Definition opened_driver : St :=
  mkSt (set_isOpened true (set_pool 1%nat (constructor sample_config)))
    [EvCreatePool (JStr "scott") (JStr "tiger") (JStr "ORCL")].

(** A driver configured with an empty user name. *)
Definition nameless_driver : St :=
  mkSt (constructor (mkConfig (JStr EmptyString) (JStr "tiger") (JStr "ORCL")
                       (JStr "PARUS"))) [].

(** ** Two sentences of the specification, word for word

    These two definitions are not taken from the code.  They write down
    what the specification promises, for comparison with the methods
    above. *)

(** Statement Executor: an internally scoped [execute] closes the
    connection it got from [getConnection] exactly once, and an error of
    the statement reaches the caller unchanged after the release. *)
Definition execute_releases_as_specified (w : World) (s : St) (aSessionId : jsval)
    (aSql : string) (aBindParams : option Binds)
    (aExecuteOptions : option ExecOptions) : Prop :=
  forall c s1,
    getConnection w aSessionId s = (Ok c, s1) ->
    let stmt := execute_out w (trace s1) c aSql
                  (Some (default (Positional []) aBindParams))
                  (Some (default ∅ aExecuteOptions)) in
    match execute w aSessionId aSql aBindParams aExecuteOptions None s with
    | (r, s2) =>
        closes c (new_events s s2) = 1%nat
        /\ forall e, stmt = Err e -> r = Err e
    end.

(** Pool Manager: [close()] terminates the pool and clears [isOpened],
    or else, on a driver that was never opened, is a no-op or fails with
    an error the driver itself raises for that purpose. *)
Definition close_as_specified (w : World) (s : St) : Prop :=
  match close w s with
  | (r, s1) =>
      (exists p, _pool (this s) = Some p /\ r = Ok tt
                 /\ new_events s s1 = [EvTerminate p]
                 /\ _isOpened (this s1) = false)
      \/ (r = Ok tt /\ s1 = s)
      \/ (exists msg, r = Err (Thrown msg) /\ s1 = s)
  end.

(** * Properties *)

Local Open Scope list_scope.

(** ** Bind parameter descriptors *)

Lemma call_val_fresh (v : jsval) :
  call_val v new_OraSqlParam = Ok (mkParam None None None (Some v)).
Proof. reflexivity. Qed.

Lemma add_val_fresh (name : string) (v : jsval) (ps : OraSqlParams) :
  add_val name v ps = Ok (<[name := mkParam None None None (Some v)]> ps).
Proof.
  unfold add_val, chained, add, lodash_set; simpl.
  now rewrite insert_insert_eq.
Qed.

(** The builder methods other than [val] leave the [val] slot alone, so a
    descriptor that went through any of them still finds the method. *)
Lemma builders_keep_val (p : OraSqlParam) (size : option Z) :
  val (dirIn p) = val p /\ val (dirOut p) = val p /\ val (dirInOut p) = val p /\
  val (typeNumber p) = val p /\ val (typeString size p) = val p /\
  val (typeDate p) = val p /\ val (typeClob p) = val p.
Proof. repeat split. Qed.

(** C10. On a descriptor on which [val] has not been called yet, the
    call [val(v)] stores [v] in the descriptor's own [val] property,
    leaves direction, datatype and size as they were and returns the
    descriptor.  From then on the own property hides the method: every
    further call [val(v')] on that descriptor, chained or not, is a
    TypeError and nothing is updated. *)
Theorem val_shadows_its_method (p : OraSqlParam) (v : jsval) :
  val p = None ->
  call_val v p = Ok (val_method v p)
  /\ val (val_method v p) = Some v
  /\ dir (val_method v p) = dir p
  /\ type (val_method v p) = type p
  /\ maxSize (val_method v p) = maxSize p
  /\ (forall v', call_val v' (val_method v p)
                 = Err (TypeError "val is not a function"))
  /\ (forall v', and_then (call_val v p) (call_val v')
                 = Err (TypeError "val is not a function")).
Proof.
  intros Hfresh.
  assert (Hcall : call_val v p = Ok (val_method v p))
    by (unfold call_val; now rewrite Hfresh).
  split; [exact Hcall|].
  do 4 (split; [reflexivity|]).
  split; intros v'.
  - reflexivity.
  - rewrite Hcall. reflexivity.
Qed.

Lemma val_shadows_its_method_witness :
  val (typeNumber (dirIn new_OraSqlParam)) = None
  /\ call_val (JNum 16) (typeNumber (dirIn new_OraSqlParam))
     = Ok (mkParam (Some BIND_IN) (Some NUMBER) None (Some (JNum 16)))
  /\ call_val (JNum 0) (mkParam (Some BIND_IN) (Some NUMBER) None (Some (JNum 16)))
     = Err (TypeError "val is not a function").
Proof.
  split; [reflexivity|].
  destruct (val_shadows_its_method (typeNumber (dirIn new_OraSqlParam)) (JNum 16)
              eq_refl) as (H1 & _ & _ & _ & _ & H2 & _).
  split; [exact H1 | exact (H2 (JNum 0))].
Defined.

(** Every property name the driver passes to [_.set] is a plain key, so
    [lodash_set] is all of [_.set] the driver needs. *)
Lemma driver_names_are_plain_keys :
  forallb plain_key
    ["SCONNECT"; "SUTILIZER"; "SPASSWORD"; "SIMPLEMENTATION"; "SAPPLICATION";
     "SCOMPANY"; "SLANGUAGE"; "SBROWSER"; "sessionID"] = true.
Proof. reflexivity. Qed.

(** The collection of the repository's test script:
    [add('SNAME').dirIn().typeString().val('TEST_VAL')] and so on. *)
Example test_script_params :
  and_then (chained "SNAME"
              (fun p => call_val (JStr "TEST_VAL") (typeString None (dirIn p)))
              (add "SNAME" new_OraSqlParams)) (fun ps =>
  and_then (chained "NDEFVAL"
              (fun p => call_val (JNum 0) (typeNumber (dirIn p)))
              (add "NDEFVAL" ps)) (fun ps =>
  chained "RES" (fun p => Ok (typeNumber (dirOut p))) (add "RES" ps)))
  = Ok ({[ "SNAME" := mkParam (Some BIND_IN) (Some STRING) None
                        (Some (JStr "TEST_VAL"));
           "NDEFVAL" := mkParam (Some BIND_IN) (Some NUMBER) None (Some (JNum 0));
           "RES" := mkParam (Some BIND_OUT) (Some NUMBER) None None ]}
        : OraSqlParams).
Proof. vm_compute. reflexivity. Qed.

Example template_of_a_number :
  to_template_string (JNum 1203) = "1203"
  /\ to_template_string (JNum (-70)) = "-70"
  /\ to_template_string JUndefined = "undefined".
Proof. repeat split. Qed.

(** ** The logon statement and its binds *)

Lemma paramsLogin_ok (d : Driver) (sid : string)
    (u pw co app lang aOld : jsval) :
  paramsLogin d sid u pw co app lang aOld =
  Ok (let base : OraSqlParams :=
        <["SLANGUAGE" := mkParam None None None (Some lang)]>
        (<["SCOMPANY" := mkParam None None None (Some co)]>
        (<["SAPPLICATION" := mkParam None None None (Some app)]>
        (<["SIMPLEMENTATION" := mkParam None None None (Some (JStr (_implementation d)))]>
        (<["SPASSWORD" := mkParam None None None (Some pw)]>
        (<["SUTILIZER" := mkParam None None None (Some u)]>
        (<["SCONNECT" := mkParam None None None (Some (JStr sid))]> ∅)))))) in
      if truthy aOld then base
      else <["SBROWSER" := mkParam None None None (Some (JStr (_browser d)))]> base).
Proof.
  unfold paramsLogin. rewrite !add_val_fresh. simpl.
  destruct (truthy aOld); simpl; [reflexivity|].
  now rewrite add_val_fresh.
Qed.

(** C6. Whatever is passed for [aOldPackageSession] (its default being
    [false]), the text of the logon statement names [SBROWSER] exactly
    when the flag is falsy, and so does the bind collection, which then
    carries the driver's browser tag; with a truthy flag neither the text
    nor the collection has it.  The other seven binds are present either
    way. *)
Theorem logon_browser_bind (d : Driver) (sid : string)
    (u pw co app lang aOldPackageSession : jsval) :
  let legacy := default_arg (JBool false) aOldPackageSession in
  exists params,
    paramsLogin d sid u pw co app lang legacy = Ok params
    /\ contains "SBROWSER" (sqlLogon legacy) = negb (truthy legacy)
    /\ contains ":SBROWSER" (sqlLogon legacy) = negb (truthy legacy)
    /\ params !! "SBROWSER"
       = (if truthy legacy then None
          else Some (mkParam None None None (Some (JStr (_browser d)))))
    /\ params !! "SCONNECT" = Some (mkParam None None None (Some (JStr sid)))
    /\ params !! "SLANGUAGE" = Some (mkParam None None None (Some lang)).
Proof.
  intros legacy. eexists. split; [apply paramsLogin_ok|].
  assert (Htext : forall k, k = "SBROWSER" \/ k = ":SBROWSER" ->
            contains k (sqlLogon legacy) = negb (truthy legacy)).
  { intros k Hk. unfold sqlLogon.
    destruct (truthy legacy); destruct Hk; subst k; vm_compute; reflexivity. }
  split; [apply Htext; now left|].
  split; [apply Htext; now right|].
  destruct (truthy legacy); cbv zeta.
  - repeat split; reflexivity.
  - repeat split; reflexivity.
Qed.

(** ** Reasoning about runs *)

Lemma new_events_app (s s' : St) (evs : list Event) :
  trace s' = trace s ++ evs -> new_events s s' = evs.
Proof. intros H. unfold new_events. rewrite H. apply drop_app_length. Qed.

Lemma closes_app (c : ConnId) (xs ys : list Event) :
  closes c (xs ++ ys) = (closes c xs + closes c ys)%nat.
Proof.
  induction xs as [|ev xs IH]; simpl; [reflexivity|].
  destruct ev; simpl; rewrite IH; lia.
Qed.

Lemma all_closes_app (xs ys : list Event) :
  all_closes (xs ++ ys) = (all_closes xs + all_closes ys)%nat.
Proof.
  induction xs as [|ev xs IH]; simpl; [reflexivity|].
  destruct ev; simpl; rewrite IH; lia.
Qed.

Ltac unfold_methods :=
  unfold logon, logoff, execute, getConnection, close, open,
    pool_getConnection, pool_terminate, conn_execute, conn_close, createPool,
    randomBytes, rows_0, try_finally, try_catch, when, bind, ret, throw, lift,
    get_this, update_this, external in *.

(** One step of case analysis on what the driver's state or a
    collaborator's answer decides next. *)
Ltac step :=
  match goal with
  | |- context [if negb (_isOpened ?d) then _ else _] =>
      destruct (_isOpened d) eqn:?
  | |- context [if negb (truthy ?v) then _ else _] =>
      destruct (truthy v) eqn:?
  | |- context [match _pool ?d with _ => _ end] =>
      destruct (_pool d) eqn:?
  | |- context [match createPool_out ?w ?h ?a ?b ?c with _ => _ end] =>
      destruct (createPool_out w h a b c) eqn:?
  | |- context [match getConnection_out ?w ?h ?p with _ => _ end] =>
      destruct (getConnection_out w h p) eqn:?
  | |- context [match execute_out ?w ?h ?c ?q ?b ?o with _ => _ end] =>
      destruct (execute_out w h c q b o) eqn:?
  | |- context [match close_out ?w ?h ?c with _ => _ end] =>
      destruct (close_out w h c) eqn:?
  | |- context [match terminate_out ?w ?h ?p with _ => _ end] =>
      destruct (terminate_out w h p) eqn:?
  | |- context [match rows ?r with _ => _ end] =>
      destruct (rows r) eqn:?
  end; simpl.

(** ** Pool manager *)

(** C5. On a driver that is already open, [open()] succeeds without
    calling [createPool] and leaves the whole state as it was.  On a
    driver that is not open and has a user name and a connect string,
    [open()] calls [createPool] once with the configured credentials;
    when the pool is created, [open()] succeeds, stores the pool and
    sets [isOpened], and a second [open()] right after it adds nothing,
    so the two calls together create exactly one pool; when [createPool]
    is rejected, so is [open()], and the driver object is as it was.
    Without a user name or a connect string [open()] is rejected with a
    thrown string before anything is called. *)
Theorem open_idempotent (w : World) (s : St) :
  let d := this s in
  let ev := EvCreatePool (_dbUser d) (_dbPassword d) (_dbConnectionString d) in
  if _isOpened d
  then open w s = (Ok tt, s)
  else if truthy (_dbUser d) && truthy (_dbConnectionString d)
  then match createPool_out w (trace s) (_dbUser d) (_dbPassword d)
               (_dbConnectionString d) with
       | Ok p =>
           let s1 := mkSt (set_isOpened true (set_pool p d)) (trace s ++ [ev]) in
           open w s = (Ok tt, s1)
           /\ _isOpened (this s1) = true
           /\ pool_creations (new_events s s1) = 1%nat
           /\ open w s1 = (Ok tt, s1)
           /\ (open w ;;; open w) s = (Ok tt, s1)
           /\ pool_creations (new_events s (snd ((open w ;;; open w) s))) = 1%nat
       | Err e => open w s = (Err e, mkSt d (trace s ++ [ev]))
       end
  else exists msg, open w s = (Err (Thrown msg), s).
Proof.
  destruct s as [d tr]. cbv zeta. unfold_methods. simpl.
  destruct (_isOpened d) eqn:Hopen; simpl; [reflexivity|].
  destruct (truthy (_dbUser d)); simpl; [|eexists; reflexivity].
  destruct (truthy (_dbConnectionString d)); simpl; [|eexists; reflexivity].
  destruct (createPool_out w tr _ _ _) as [p|e]; simpl; [|reflexivity].
  assert (Hnew : forall d', pool_creations
            (new_events (mkSt d tr)
               (mkSt d' (tr ++ [EvCreatePool (_dbUser d) (_dbPassword d)
                                  (_dbConnectionString d)]))) = 1%nat).
  { intros d'. now erewrite new_events_app by reflexivity. }
  repeat split; apply Hnew.
Qed.

Lemma open_idempotent_witness :
  let opened :=
    mkSt (set_isOpened true (set_pool 1%nat (constructor sample_config)))
      [EvCreatePool (JStr "scott") (JStr "tiger") (JStr "ORCL")] in
  open healthy fresh_driver = (Ok tt, opened)
  /\ open healthy opened = (Ok tt, opened)
  /\ (open healthy ;;; open healthy) fresh_driver = (Ok tt, opened)
  /\ pool_creations
       (new_events fresh_driver
          (snd ((open healthy ;;; open healthy) fresh_driver))) = 1%nat.
Proof.
  destruct (open_idempotent healthy fresh_driver) as (H1 & _ & _ & H2 & H3 & H4).
  cbv zeta.
  split; [exact H1|]. split; [exact H2|]. split; [exact H3 | exact H4].
Defined.

(** C9 (as the code has it). [close()] reads [this._pool] without a
    guard.  With a pool it calls [terminate]: when that succeeds the flag
    [isOpened] becomes false, when it is rejected the rejection reaches
    the caller and the driver object is untouched.  Without a pool (no
    [open()] ever succeeded) the call is rejected with the runtime's
    TypeError before anything is called, and the state is untouched; in
    no case is [isOpened] true after a successful [close()]. *)
Theorem close_terminates_or_fails (w : World) (s : St) :
  match _pool (this s) with
  | Some p =>
      match terminate_out w (trace s) p with
      | Ok _ => close w s = (Ok tt, mkSt (set_isOpened false (this s))
                                      (trace s ++ [EvTerminate p]))
      | Err e => close w s = (Err e, mkSt (this s) (trace s ++ [EvTerminate p]))
      end
  | None =>
      close w s = (Err (TypeError "Cannot read property 'terminate' of undefined"), s)
  end
  /\ match close w s with
     | (Ok _, s1) => _isOpened (this s1) = false
     | (Err _, s1) => this s1 = this s
     end.
Proof.
  destruct s as [d tr]. unfold_methods. simpl.
  destruct (_pool d) as [p|]; simpl; [|split; reflexivity].
  destruct (terminate_out w tr p) as [[]|e]; split; reflexivity.
Qed.

(** C9 (as the specification has it) fails on a driver that was never
    opened: the call is rejected, so it is no no-op, and what rejects it
    is the runtime's TypeError on [undefined.terminate], not an error the
    driver raises. *)
Lemma close_never_opened_is_a_TypeError :
  close healthy fresh_driver
  = (Err (TypeError "Cannot read property 'terminate' of undefined"), fresh_driver)
  /\ ~ close_as_specified healthy fresh_driver.
Proof.
  split; [reflexivity|].
  unfold close_as_specified.
  change (close healthy fresh_driver)
    with (@Err unit (TypeError "Cannot read property 'terminate' of undefined"),
          fresh_driver).
  intros [(p & Hp & _) | [(Hr & _) | (msg & Hr & _)]]; discriminate.
Qed.

(** ** Statement executor *)

(** C3. With a connection supplied by the caller, [execute] makes one
    call to a collaborator, the statement on that connection, and hands
    back its answer as it is.  No [close()] is called on the supplied
    connection or on any other, whether the statement succeeds or is
    rejected, and the driver object is unchanged. *)
Theorem execute_keeps_callers_connection (w : World) (s : St) (aSessionId : jsval)
    (aSql : string) (aBindParams : option Binds)
    (aExecuteOptions : option ExecOptions) (aConnection : ConnId) :
  let ev := EvExecute aConnection aSql
              (Some (default (Positional []) aBindParams))
              (Some (default ∅ aExecuteOptions)) in
  let run := execute w aSessionId aSql aBindParams aExecuteOptions
               (Some aConnection) s in
  run = (execute_out w (trace s) aConnection aSql
           (Some (default (Positional []) aBindParams))
           (Some (default ∅ aExecuteOptions)),
         mkSt (this s) (trace s ++ [ev]))
  /\ new_events s (snd run) = [ev]
  /\ closes aConnection (new_events s (snd run)) = 0%nat
  /\ all_closes (new_events s (snd run)) = 0%nat.
Proof.
  intros ev run.
  assert (Hrun : run = (execute_out w (trace s) aConnection aSql
                          (Some (default (Positional []) aBindParams))
                          (Some (default ∅ aExecuteOptions)),
                        mkSt (this s) (trace s ++ [ev]))).
  { subst run ev. unfold_methods. simpl.
    destruct (execute_out w (trace s) aConnection aSql _ _); reflexivity. }
  split; [exact Hrun|].
  rewrite Hrun. simpl.
  rewrite (new_events_app s _ [ev]) by reflexivity.
  repeat split.
Qed.

(** ** Session binder *)

(** A list given as [front ++ [v]] has [v] as its last element and
    [front] as the rest. *)
Lemma snoc_inv {A} (evs front : list A) (v : A) :
  evs = front ++ [v] -> last evs = Some v /\ front = removelast evs.
Proof.
  intros ->. split; [apply last_snoc | now rewrite removelast_last].
Qed.

Ltac split_last H :=
  apply snoc_inv in H; simpl in H; destruct H as [? ?]; simplify_eq.

(** Closes a leaf of [getConnection_run] once [pre] is chosen: either
    the connection is returned and the three events and their answers are
    at hand, or the run stopped early and its last event decides whether
    the validation was reached. *)
Ltac finish_run pre :=
  exists pre;
  (split; [ first [ now left | right; eauto ] |]);
  rewrite ?app_nil_r in *; simpl in *;
  first
    [ do 3 eexists; repeat split; eauto; fail
    | eexists; split; [reflexivity|]; split; [reflexivity|];
      intros front c' Hlast; split_last Hlast; eauto; fail
    | exists []; rewrite app_nil_r; split; [reflexivity|];
      split; [reflexivity|];
      intros front c' Hlast; split_last Hlast; fail ].


(** Every run of [getConnection], by outcome.  [pre] is what the lazy
    [open()] contributed. *)
Lemma getConnection_run (w : World) (aSessionId : jsval) (s : St) :
  exists pre,
    (pre = [] \/ exists u p c, pre = [EvCreatePool u p c]) /\
    match getConnection w aSessionId s with
    | (Ok c, s1) =>
        exists p r1 r2,
          let schema_event := EvExecute c (sqlSchema (this s1)) None None in
          trace s1 = trace s ++ pre ++
                       [EvGetConnection p; schema_event; validate_event c aSessionId]
          /\ getConnection_out w (trace s ++ pre) p = Ok c
          /\ execute_out w (trace s ++ pre ++ [EvGetConnection p]) c
               (sqlSchema (this s1)) None None = Ok r1
          /\ execute_out w (trace s ++ pre ++ [EvGetConnection p; schema_event]) c
               sqlValidate (Some (Positional [aSessionId])) None = Ok r2
    | (Err e, s1) =>
        exists evs,
          trace s1 = trace s ++ evs
          /\ all_closes evs = 0%nat
          /\ forall front c,
               evs = front ++ [validate_event c aSessionId] ->
               execute_out w (trace s ++ front) c sqlValidate
                 (Some (Positional [aSessionId])) None = Err e
    end.
Proof.
  destruct s as [d tr]. unfold validate_event. unfold_methods. simpl.
  repeat step.
  all: rewrite <- ?app_assoc in *; simpl in *.
  all: first [ solve [finish_run (@nil Event)]
             | solve [finish_run [EvCreatePool (_dbUser d) (_dbPassword d)
                                    (_dbConnectionString d)]] ].
Qed.

(** On an open driver the forward reading: lease and schema switch
    succeed, the validation is rejected, and that rejection is the
    outcome of [getConnection]. *)
Lemma getConnection_validation_rejected (w : World) (aSessionId : jsval) (s : St)
    (p : PoolId) (c : ConnId) (r1 : ExecResult) (e : Error) :
  _isOpened (this s) = true ->
  _pool (this s) = Some p ->
  getConnection_out w (trace s) p = Ok c ->
  let schema_event := EvExecute c (sqlSchema (this s)) None None in
  execute_out w (trace s ++ [EvGetConnection p]) c (sqlSchema (this s)) None None
    = Ok r1 ->
  execute_out w (trace s ++ [EvGetConnection p; schema_event]) c sqlValidate
    (Some (Positional [aSessionId])) None = Err e ->
  getConnection w aSessionId s
  = (Err e, mkSt (this s)
              (trace s ++ [EvGetConnection p; schema_event;
                           validate_event c aSessionId])).
Proof.
  destruct s as [d tr]. simpl. intros Hopen Hpool Hlease Hschema Hval.
  unfold validate_event. unfold_methods. simpl.
  rewrite Hopen. simpl. rewrite Hpool. simpl. rewrite Hlease. simpl.
  rewrite Hschema. simpl. rewrite <- !app_assoc. simpl.
  rewrite Hval. reflexivity.
Qed.


(** C1 (as the code has it). When [execute] is called without a
    connection and [getConnection] returned one, the statement runs on
    it and then [close()] is called on it: exactly once in the whole
    call, on no other connection, and whether the statement succeeded or
    was rejected.  The caller receives the outcome of the statement, its
    result or its error, unchanged whenever [close()] succeeds; when
    [close()] is rejected, the caller receives that rejection instead. *)
Theorem execute_releases_once (w : World) (s : St) (aSessionId : jsval)
    (aSql : string) (aBindParams : option Binds)
    (aExecuteOptions : option ExecOptions) (c : ConnId) (s1 : St) :
  getConnection w aSessionId s = (Ok c, s1) ->
  let ev := EvExecute c aSql (Some (default (Positional []) aBindParams))
              (Some (default ∅ aExecuteOptions)) in
  let stmt := execute_out w (trace s1) c aSql
                (Some (default (Positional []) aBindParams))
                (Some (default ∅ aExecuteOptions)) in
  let rel := close_out w (trace s1 ++ [ev]) c in
  let run := execute w aSessionId aSql aBindParams aExecuteOptions None s in
  run = (match rel with Ok _ => stmt | Err e => Err e end,
         mkSt (this s1) (trace s1 ++ [ev; EvClose c]))
  /\ closes c (new_events s (snd run)) = 1%nat
  /\ all_closes (new_events s (snd run)) = 1%nat.
Proof.
  intros Hget ev stmt rel run.
  assert (Hrun : run = (match rel with Ok _ => stmt | Err e => Err e end,
                        mkSt (this s1) (trace s1 ++ [ev; EvClose c]))).
  { subst run. unfold execute. unfold bind at 1. rewrite Hget.
    unfold try_finally, conn_execute, conn_close, external. simpl.
    fold ev. fold stmt. fold rel. rewrite <- app_assoc. simpl.
    destruct rel; reflexivity. }
  split; [exact Hrun|]. rewrite Hrun. simpl.
  pose proof (getConnection_run w aSessionId s) as (pre & Hpre & Hbound).
  rewrite Hget in Hbound. destruct Hbound as (p & r1 & r2 & Htr & _).
  cbv zeta in Htr.
  erewrite new_events_app
    by (simpl; rewrite Htr, <- !app_assoc; reflexivity).
  rewrite closes_app, all_closes_app. unfold validate_event. subst ev.
  destruct Hpre as [-> | (u & pw & cs & ->)]; simpl;
    rewrite Nat.eqb_refl; split; reflexivity.
Qed.

Lemma execute_releases_once_witness :
  getConnection healthy (JStr "tok") fresh_driver
  = (Ok 7%nat, snd (getConnection healthy (JStr "tok") fresh_driver))
  /\ closes 7 (new_events fresh_driver
                 (snd (execute healthy (JStr "tok") "select 1 from dual"
                         None None None fresh_driver))) = 1%nat.
Proof.
  split; [reflexivity|].
  apply (execute_releases_once healthy fresh_driver (JStr "tok")
           "select 1 from dual" None None 7%nat
           (snd (getConnection healthy (JStr "tok") fresh_driver))).
  reflexivity.
Defined.

(** C1 (as the specification has it) fails when the release is rejected
    too: the statement is rejected with ORA-00942, [close()] is called,
    once, and is rejected with DPI-1010, and it is DPI-1010 that the
    caller receives. *)
Lemma execute_release_replaces_the_error :
  fst (execute failing_release (JStr "tok") "select * from v_companies"
         None None None fresh_driver) = Err DPI_1010
  /\ ~ execute_releases_as_specified failing_release fresh_driver (JStr "tok")
        "select * from v_companies" None None.
Proof.
  split; [reflexivity|].
  intros Hspec.
  specialize (Hspec 7%nat _ eq_refl). cbv zeta in Hspec.
  destruct (execute failing_release (JStr "tok") "select * from v_companies"
              None None None fresh_driver) as [r s2] eqn:Hrun.
  destruct Hspec as [_ Hsame].
  specialize (Hsame ORA_00942 eq_refl).
  vm_compute in Hrun. rewrite Hsame in Hrun. discriminate Hrun.
Qed.

(** ** Session lifecycle manager *)

(** C7. [logoff] never rejects.  It runs the logoff statement through an
    internally scoped [execute]; when that call succeeds the status is 0,
    and when it is rejected, for whatever reason (pool, lease, schema
    switch, validation of an unknown token, the statement itself or the
    release), the error is dropped and the status is -1.  State and trace
    are those [execute] left. *)
Theorem logoff_never_throws (w : World) (aSessionId : jsval) (s : St) :
  let run := execute w aSessionId sqlLogoff
               (Some (Positional [aSessionId])) None None s in
  logoff w aSessionId s
  = (Ok (match fst run with Ok _ => 0 | Err _ => -1 end), snd run).
Proof.
  intros run. subst run. unfold logoff, try_catch, bind, ret.
  destruct (execute w aSessionId sqlLogoff _ None None s) as [[r|e] s1];
    reflexivity.
Qed.

(** *** The session token *)

Lemma length_random_buffer (w : World) (h : list Event) (size : nat) :
  length (random_buffer w h size) = size.
Proof. unfold random_buffer. now rewrite length_map, length_seq. Qed.

Lemma length_toString_hex (buf : list byte) :
  String.length (toString_hex buf) = (2 * length buf)%nat.
Proof.
  induction buf as [|b buf IH]; simpl; [reflexivity|].
  rewrite IH. lia.
Qed.

Lemma lower_hex_of_byte (b : byte) (rest : string) :
  lower_hex (hex_of_byte b rest) = lower_hex rest.
Proof. destruct b; reflexivity. Qed.

Lemma lower_hex_toString_hex (buf : list byte) :
  lower_hex (toString_hex buf) = true.
Proof.
  induction buf as [|b buf IH]; [reflexivity|].
  simpl toString_hex. now rewrite lower_hex_of_byte.
Qed.

#[local] Arguments toString_hex : simpl never.
#[local] Arguments random_buffer : simpl never.
#[local] Arguments sqlLogon : simpl never.
#[local] Arguments sqlInfo : simpl never.
#[local] Arguments paramsLogin : simpl never.

(** Every run of [logon]: the token is drawn first and once; a result
    row carries it as [sessionID]; at most one [close()] is called, and
    exactly one once the logon statement was sent. *)
Lemma logon_run (w : World) (u pw co app lang aOld : jsval) (s : St) :
  let run := logon w u pw co app lang aOld s in
  let sid := toString_hex (random_buffer w (trace s) 24) in
  exists evs,
    new_events s (snd run) = EvRandomBytes 24 :: evs
    /\ token_generations evs = 0%nat
    /\ (all_closes evs <= 1)%nat
    /\ match fst run with
       | Ok (Some row) => row !! "sessionID" = Some (JStr sid) /\ all_closes evs = 1%nat
       | Ok None => all_closes evs = 1%nat
       | Err _ => True
       end.
Proof.
  destruct s as [d tr]. intros run sid. subst run.
  unfold_methods. simpl in *. subst sid.
  pose proof (paramsLogin_ok d (toString_hex (random_buffer w tr 24))
                u pw co app lang (default_arg (JBool false) aOld)) as Hparams.
  destruct (paramsLogin d _ u pw co app lang _) as [params|]; [|discriminate].
  clear Hparams. simpl.
  repeat step.
  all: rewrite <- ?app_assoc; simpl.
  all: try (eexists; split; [apply new_events_app; reflexivity|];
            simpl; repeat split; (reflexivity || lia); fail).
  all: destruct (head l) as [row|]; simpl;
       (eexists; split; [apply new_events_app; reflexivity|]);
       simpl; repeat split; try lia; apply lookup_insert_eq.
Qed.

(** C8. A row that [logon] returns carries, as [sessionID], the
    hexadecimal text of the 24 bytes [randomBytes(24)] produced: 48
    characters, each a digit or a letter from a to f.  The bytes are
    drawn by the first action of the call, before the pool is touched or
    any statement is sent, and no second draw happens in the call. *)
Theorem logon_sessionID_is_hex_of_24_bytes (w : World)
    (u pw co app lang aOld : jsval) (s s1 : St) (row : Row) :
  logon w u pw co app lang aOld s = (Ok (Some row), s1) ->
  let buf := random_buffer w (trace s) 24 in
  length buf = 24%nat
  /\ row !! "sessionID" = Some (JStr (toString_hex buf))
  /\ String.length (toString_hex buf) = 48%nat
  /\ lower_hex (toString_hex buf) = true
  /\ exists evs,
       new_events s s1 = EvRandomBytes 24 :: evs
       /\ token_generations evs = 0%nat.
Proof.
  intros Hrun buf.
  pose proof (logon_run w u pw co app lang aOld s) as (evs & Hev & Hgen & _ & Hres).
  rewrite Hrun in Hev, Hres. simpl in Hev, Hres. destruct Hres as [Hsid _].
  assert (Hlen : length buf = 24%nat) by apply length_random_buffer.
  split; [exact Hlen|].
  split; [exact Hsid|].
  split; [now rewrite length_toString_hex, Hlen|].
  split; [apply lower_hex_toString_hex|].
  exists evs. auto.
Qed.

(** *** Release of the connection that [logon] leases *)

(** Past the schema switch the [try ... finally] of [logon] does its
    work: whatever the logon statement and the informational query
    answer, [close()] is the last action, and the only [close()]. *)
Lemma logon_releases_past_schema_switch (w : World)
    (u pw co app lang aOld : jsval) (s : St)
    (p : PoolId) (c : ConnId) (r0 : ExecResult) :
  _isOpened (this s) = true ->
  _pool (this s) = Some p ->
  getConnection_out w (trace s ++ [EvRandomBytes 24]) p = Ok c ->
  execute_out w (trace s ++ [EvRandomBytes 24; EvGetConnection p]) c
    (sqlSchema (this s)) None None = Ok r0 ->
  let run := logon w u pw co app lang aOld s in
  last (new_events s (snd run)) = Some (EvClose c)
  /\ closes c (new_events s (snd run)) = 1%nat
  /\ all_closes (new_events s (snd run)) = 1%nat.
Proof.
  destruct s as [d tr]. simpl. intros Hopen Hpool Hlease Hschema.
  unfold_methods. simpl in *.
  pose proof (paramsLogin_ok d (toString_hex (random_buffer w tr 24))
                u pw co app lang (default_arg (JBool false) aOld)) as Hparams.
  destruct (paramsLogin d _ u pw co app lang _) as [params|]; [|discriminate].
  clear Hparams. simpl. rewrite Hopen. simpl. rewrite Hpool. simpl.
  rewrite Hlease. simpl. rewrite <- !app_assoc. simpl. rewrite Hschema. simpl.
  repeat step.
  all: rewrite <- ?app_assoc; simpl.
  all: erewrite new_events_app by reflexivity.
  all: simpl; rewrite Nat.eqb_refl; repeat split.
Qed.

(** Before it the connection is not protected: a rejected schema switch
    ends [logon] with that rejection, and the leased connection is left
    without a [close()]. *)
Lemma logon_schema_switch_rejected (w : World)
    (u pw co app lang aOld : jsval) (s : St)
    (p : PoolId) (c : ConnId) (e : Error) :
  _isOpened (this s) = true ->
  _pool (this s) = Some p ->
  getConnection_out w (trace s ++ [EvRandomBytes 24]) p = Ok c ->
  execute_out w (trace s ++ [EvRandomBytes 24; EvGetConnection p]) c
    (sqlSchema (this s)) None None = Err e ->
  logon w u pw co app lang aOld s
  = (Err e, mkSt (this s)
              (trace s ++ [EvRandomBytes 24; EvGetConnection p;
                           EvExecute c (sqlSchema (this s)) None None])).
Proof.
  destruct s as [d tr]. simpl. intros Hopen Hpool Hlease Hschema.
  unfold_methods. simpl in *.
  pose proof (paramsLogin_ok d (toString_hex (random_buffer w tr 24))
                u pw co app lang (default_arg (JBool false) aOld)) as Hparams.
  destruct (paramsLogin d _ u pw co app lang _) as [params|]; [|discriminate].
  clear Hparams. simpl. rewrite Hopen. simpl. rewrite Hpool. simpl.
  rewrite Hlease. simpl. rewrite <- !app_assoc. simpl. rewrite Hschema.
  reflexivity.
Qed.

(** C2 (where the code departs from it). A driver fresh from its
    constructor logs on against a pool whose connection rejects the
    schema switch with ORA-01435.  [logon] draws the token, opens the
    pool, leases connection 7, sends the schema switch and is rejected
    with ORA-01435: the statement stands before the [try], so the
    [finally] never runs and connection 7 is not closed. *)
Theorem logon_leaks_on_rejected_schema_switch :
  let run := logon failing_schema_switch (JStr "U1") (JStr "P1") (JStr "C1")
               JUndefined JUndefined JUndefined fresh_driver in
  fst run = Err ORA_01435
  /\ new_events fresh_driver (snd run)
     = [EvRandomBytes 24;
        EvCreatePool (JStr "scott") (JStr "tiger") (JStr "ORCL");
        EvGetConnection 1;
        EvExecute 7 "alter session set CURRENT_SCHEMA = PARUS" None None]
  /\ closes 7 (new_events fresh_driver (snd run)) = 0%nat
  /\ all_closes (new_events fresh_driver (snd run)) = 0%nat.
Proof. vm_compute. repeat split. Qed.

Lemma logon_sessionID_is_hex_of_24_bytes_witness :
  exists row,
    fst (logon healthy (JStr "U1") (JStr "P1") (JStr "C1")
           JUndefined JUndefined JUndefined fresh_driver) = Ok (Some row)
    /\ row !! "sessionID"
       = Some (JStr "0b30557a9fc4e90e33587da2c7ec11365b80a5caef14395e")
    /\ row !! "NCOMPANY" = Some (JNum 42).
Proof.
  pose (run := logon healthy (JStr "U1") (JStr "P1") (JStr "C1")
                 JUndefined JUndefined JUndefined fresh_driver).
  pose (row := lodash_set
                 ({[ "NCOMPANY" := JNum 42; "SFULLUSERNAME" := JStr "U1";
                     "SAPPNAME" := JStr "Admin";
                     "SCOMPANYFULLNAME" := JStr "C1" ]} : Row)
                 "sessionID"
                 (JStr "0b30557a9fc4e90e33587da2c7ec11365b80a5caef14395e")).
  assert (Hrun : run = (Ok (Some row), snd run)) by (vm_compute; reflexivity).
  exists row. split; [vm_compute; reflexivity|].
  split; [|vm_compute; reflexivity].
  exact (proj1 (proj2 (logon_sessionID_is_hex_of_24_bytes healthy
                         (JStr "U1") (JStr "P1") (JStr "C1")
                         JUndefined JUndefined JUndefined
                         fresh_driver (snd run) row Hrun))).
Defined.

(** The statement and the binds of C6 are what [logon] sends: once the
    schema switch has gone through, the next action is the logon
    statement with the bind collection built from the arguments. *)
Lemma logon_sends_its_statement (w : World)
    (u pw co app lang aOld : jsval) (s : St)
    (p : PoolId) (c : ConnId) (r0 : ExecResult) :
  _isOpened (this s) = true ->
  _pool (this s) = Some p ->
  getConnection_out w (trace s ++ [EvRandomBytes 24]) p = Ok c ->
  execute_out w (trace s ++ [EvRandomBytes 24; EvGetConnection p]) c
    (sqlSchema (this s)) None None = Ok r0 ->
  let legacy := default_arg (JBool false) aOld in
  exists params rest,
    paramsLogin (this s) (toString_hex (random_buffer w (trace s) 24))
      u pw co app lang legacy = Ok params
    /\ new_events s (snd (logon w u pw co app lang aOld s))
       = [EvRandomBytes 24; EvGetConnection p;
          EvExecute c (sqlSchema (this s)) None None;
          EvExecute c (sqlLogon legacy) (Some (Named params)) (Some ∅)] ++ rest.
Proof.
  destruct s as [d tr]. simpl. intros Hopen Hpool Hlease Hschema.
  unfold_methods. simpl in *.
  pose proof (paramsLogin_ok d (toString_hex (random_buffer w tr 24))
                u pw co app lang (default_arg (JBool false) aOld)) as Hparams.
  destruct (paramsLogin d _ u pw co app lang _) as [params|]; [|discriminate].
  clear Hparams. exists params. simpl. rewrite Hopen. simpl. rewrite Hpool. simpl.
  rewrite Hlease. simpl. rewrite <- !app_assoc. simpl. rewrite Hschema. simpl.
  repeat step.
  all: rewrite <- ?app_assoc; simpl.
  all: eexists; split; [reflexivity|].
  all: erewrite new_events_app by reflexivity; reflexivity.
Qed.

(** ** The methods on concrete collaborators *)

Example open_twice_creates_one_pool :
  (open healthy ;;; open healthy) fresh_driver
  = (Ok tt, mkSt (set_isOpened true (set_pool 1%nat (constructor sample_config)))
              [EvCreatePool (JStr "scott") (JStr "tiger") (JStr "ORCL")]).
Proof. reflexivity. Qed.

Example open_needs_a_user :
  fst (open healthy
         (mkSt (constructor (mkConfig JUndefined JUndefined (JStr "ORCL") JUndefined)) []))
  = Err (Thrown "You must set user's name before open database").
Proof. reflexivity. Qed.

Example close_after_open :
  (open healthy ;;; close healthy) fresh_driver
  = (Ok tt, mkSt (set_isOpened false (set_pool 1%nat (constructor sample_config)))
              [EvCreatePool (JStr "scott") (JStr "tiger") (JStr "ORCL");
               EvTerminate 1]).
Proof. reflexivity. Qed.

Example getConnection_healthy :
  getConnection healthy (JStr "tok") fresh_driver
  = (Ok 7%nat,
     mkSt (set_isOpened true (set_pool 1%nat (constructor sample_config)))
       [EvCreatePool (JStr "scott") (JStr "tiger") (JStr "ORCL");
        EvGetConnection 1;
        EvExecute 7 "alter session set CURRENT_SCHEMA = PARUS" None None;
        validate_event 7 (JStr "tok")]).
Proof. reflexivity. Qed.

(** An unknown token: the validation statement is rejected, and so is
    [getConnection]; [logoff] turns the same rejection into -1. *)
Example getConnection_unknown_token :
  getConnection unknown_token (JStr "nope") fresh_driver
  = (Err ORA_20001,
     mkSt (set_isOpened true (set_pool 1%nat (constructor sample_config)))
       ([EvCreatePool (JStr "scott") (JStr "tiger") (JStr "ORCL");
         EvGetConnection 1;
         EvExecute 7 "alter session set CURRENT_SCHEMA = PARUS" None None]
        ++ [validate_event 7 (JStr "nope")])).
Proof. reflexivity. Qed.

(** The connection leased for an unknown token is not closed either:
    [getConnection] has no [try] at all. *)
Example logoff_unknown_token_leaves_the_lease :
  all_closes (new_events fresh_driver
                (snd (logoff unknown_token (JStr "nope") fresh_driver))) = 0%nat.
Proof. reflexivity. Qed.

Example logoff_unknown_token :
  fst (logoff unknown_token (JStr "nope") fresh_driver) = Ok (-1).
Proof. reflexivity. Qed.

Example logoff_healthy :
  logoff healthy (JStr "tok") fresh_driver
  = (Ok 0,
     mkSt (set_isOpened true (set_pool 1%nat (constructor sample_config)))
       [EvCreatePool (JStr "scott") (JStr "tiger") (JStr "ORCL");
        EvGetConnection 1;
        EvExecute 7 "alter session set CURRENT_SCHEMA = PARUS" None None;
        validate_event 7 (JStr "tok");
        EvExecute 7 sqlLogoff (Some (Positional [JStr "tok"])) (Some ∅);
        EvClose 7]).
Proof. reflexivity. Qed.

Example execute_on_callers_connection :
  execute failing_release (JStr "tok") "select * from v_companies"
    None None (Some 3%nat) fresh_driver
  = (Err ORA_00942,
     mkSt (constructor sample_config)
       [EvExecute 3 "select * from v_companies" (Some (Positional [])) (Some ∅)]).
Proof. reflexivity. Qed.

(** * Further properties of the code *)

(** ** Bind parameter descriptors and collections *)

(** A direction setter overwrites what an earlier direction setter
    wrote, a datatype setter overwrites the datatype, and a setter of one
    kind commutes with a setter of the other. *)
Theorem setters_last_wins_and_commute (f g t : OraSqlParam -> OraSqlParam)
    (size : option Z) (p : OraSqlParam) :
  In f dir_setters -> In g dir_setters -> In t (type_setters size) ->
  f (g p) = f p
  /\ f (t p) = t (f p)
  /\ (forall t' size', In t' (type_setters size') -> type (t (t' p)) = type (t p))
  /\ val (f (t p)) = val p.
Proof.
  unfold dir_setters, type_setters. simpl.
  intros Hf Hg Ht.
  repeat match goal with H : _ \/ _ |- _ => destruct H as [<- | H] end;
    try contradiction.
  all: repeat split; try reflexivity.
  all: intros t' size' Ht'; simpl in Ht';
    repeat match goal with H : _ \/ _ |- _ => destruct H as [<- | H] end;
    try contradiction; reflexivity.
Qed.

Lemma setters_last_wins_and_commute_witness :
  dirOut (dirIn new_OraSqlParam) = dirOut new_OraSqlParam
  /\ dirOut (typeString (Some 40) new_OraSqlParam)
     = mkParam (Some BIND_OUT) (Some STRING) (Some 40) None.
Proof.
  pose proof (setters_last_wins_and_commute dirOut dirIn (typeString (Some 40))
                (Some 40) new_OraSqlParam) as H.
  simpl in H.
  destruct H as (H1 & H2 & _); [right; now left | now left | right; now left |].
  split; [exact H1 | exact H2].
Defined.

(** [maxSize] is written by [typeString(n)] with a non-zero [n] and by
    nothing else: [typeString()] and [typeString(0)] leave it, and so do
    the direction setters, the other datatype setters and [val].  A size
    given for a string therefore stays on the descriptor when its
    datatype is changed afterwards. *)
Theorem maxSize_is_sticky (p : OraSqlParam) (n : Z) (v : jsval) :
  maxSize (typeString (Some n) p) = (if n =? 0 then maxSize p else Some n)
  /\ maxSize (typeString None p) = maxSize p
  /\ Forall (fun setter => maxSize (setter p) = maxSize p)
       (dir_setters ++ [typeNumber; typeDate; typeClob; val_method v])
  /\ maxSize (typeNumber (typeString (Some n) p))
     = (if n =? 0 then maxSize p else Some n).
Proof.
  repeat split.
  repeat constructor.
Qed.

(** For names that [_.set] takes as a single key and that do not hide
    the [add] method (no path syntax, none of [reserved_names]), on a
    collection whose [add] is still the method: [add(name).val(v)] on a
    name that is already in the collection replaces the whole
    descriptor, with no TypeError, unlike a second [val] on the same
    descriptor, and the earlier value is gone.  On different names the
    order of two insertions does not matter, and an insertion touches no
    other name. *)
Theorem add_val_overwrites_and_commutes (n1 n2 : string) (v1 v2 : jsval)
    (ps : OraSqlParams) :
  ordinary_name n1 = true ->
  ordinary_name n2 = true ->
  ps !! "add" = None ->
  and_then (add_val n1 v1 ps) (add_val n2 v2)
  = (if decide (n1 = n2) then add_val n2 v2 ps
     else and_then (add_val n2 v2 ps) (add_val n1 v1))
  /\ exists ps',
       add_val n1 v1 ps = Ok ps'
       /\ ps' !! n1 = Some (mkParam None None None (Some v1))
       /\ ps' !! "add" = None
       /\ forall n, n <> n1 -> ps' !! n = ps !! n.
Proof.
  intros Hn1 _ Hadd. split.
  - rewrite !add_val_fresh. simpl. rewrite ?add_val_fresh.
    destruct (decide (n1 = n2)) as [->|Hne].
    + now rewrite insert_insert_eq.
    + simpl. rewrite ?add_val_fresh. f_equal.
      apply insert_insert_ne. congruence.
  - eexists. split; [apply add_val_fresh|].
    split; [apply lookup_insert_eq|].
    split.
    + rewrite lookup_insert_ne; [exact Hadd|].
      intros ->. vm_compute in Hn1. discriminate Hn1.
    + intros n Hn. now apply lookup_insert_ne.
Qed.

Lemma add_val_overwrites_and_commutes_witness :
  and_then (add_val "SNAME" (JStr "first") ∅) (add_val "SNAME" (JStr "TEST_VAL"))
  = add_val "SNAME" (JStr "TEST_VAL") ∅
  /\ and_then (add_val "SNAME" (JStr "TEST_VAL") ∅) (add_val "NDEFVAL" (JNum 0))
     = and_then (add_val "NDEFVAL" (JNum 0) ∅) (add_val "SNAME" (JStr "TEST_VAL")).
Proof.
  split.
  - exact (proj1 (add_val_overwrites_and_commutes "SNAME" "SNAME"
                    (JStr "first") (JStr "TEST_VAL") ∅ eq_refl eq_refl eq_refl)).
  - exact (proj1 (add_val_overwrites_and_commutes "SNAME" "NDEFVAL"
                    (JStr "TEST_VAL") (JNum 0) ∅ eq_refl eq_refl eq_refl)).
Defined.

(** The binds [logon] builds: seven names, or eight with [SBROWSER].
    Each carries its own argument as its value, untouched (an argument
    left out is bound as [undefined]): [SCONNECT] the token, [SUTILIZER]
    the user, [SPASSWORD] the password, [SAPPLICATION] the application,
    [SCOMPANY] the company, [SLANGUAGE] the language; [SIMPLEMENTATION]
    carries the driver's implementation tag and [SBROWSER], when
    present, the driver's browser tag.  No bind has a direction, a
    datatype or a size. *)
Theorem paramsLogin_binds (d : Driver) (sid : string)
    (u pw co app lang legacy : jsval) :
  exists params,
    paramsLogin d sid u pw co app lang legacy = Ok params
    /\ dom params
       = list_to_set ["SCONNECT"; "SUTILIZER"; "SPASSWORD"; "SIMPLEMENTATION";
                      "SAPPLICATION"; "SCOMPANY"; "SLANGUAGE"]
         ∪ (if truthy legacy then ∅ else {["SBROWSER"]})
    /\ size params = (if truthy legacy then 7 else 8)%nat
    /\ params !! "SCONNECT" = Some (mkParam None None None (Some (JStr sid)))
    /\ params !! "SLANGUAGE" = Some (mkParam None None None (Some lang))
    /\ params !! "SBROWSER"
       = (if truthy legacy then None
          else Some (mkParam None None None (Some (JStr (_browser d)))))
    /\ params !! "SUTILIZER" = Some (mkParam None None None (Some u))
    /\ params !! "SPASSWORD" = Some (mkParam None None None (Some pw))
    /\ params !! "SIMPLEMENTATION"
       = Some (mkParam None None None (Some (JStr (_implementation d))))
    /\ params !! "SAPPLICATION" = Some (mkParam None None None (Some app))
    /\ params !! "SCOMPANY" = Some (mkParam None None None (Some co))
    /\ map_Forall (fun _ p => dir p = None /\ type p = None /\ maxSize p = None)
         params.
Proof.
  eexists. split; [apply paramsLogin_ok|].
  destruct (truthy legacy); cbv zeta.
  - split; [vm_compute; reflexivity|]. split; [reflexivity|].
    do 8 (split; [reflexivity|]).
    repeat (apply map_Forall_insert_2; [repeat split|]).
    apply map_Forall_empty.
  - split; [vm_compute; reflexivity|]. split; [reflexivity|].
    do 8 (split; [reflexivity|]).
    repeat (apply map_Forall_insert_2; [repeat split|]).
    apply map_Forall_empty.
Qed.

(** ** The session token *)

Lemma hex_digit_inj (a b : N) :
  (a < 16)%N -> (b < 16)%N -> hex_digit a = hex_digit b -> a = b.
Proof.
  intros Ha Hb.
  assert (Hcases : forall n : N, (n < 16)%N ->
            In n [0; 1; 2; 3; 4; 5; 6; 7; 8; 9; 10; 11; 12; 13; 14; 15]%N).
  { intros n Hn. simpl.
    destruct n as [|q]; [now left|].
    do 4 (destruct q as [q|q|]; try lia; auto 20). }
  pose proof (Hcases a Ha) as Ia. pose proof (Hcases b Hb) as Ib.
  simpl in Ia, Ib.
  repeat (destruct Ia as [<- | Ia]; [|]); try contradiction;
    repeat (destruct Ib as [<- | Ib]; [|]); try contradiction;
    intros H; try reflexivity; discriminate H.
Qed.

Lemma hex_of_byte_inj (b b' : byte) (rest rest' : string) :
  hex_of_byte b rest = hex_of_byte b' rest' -> b = b' /\ rest = rest'.
Proof.
  unfold hex_of_byte. intros H. injection H as Hhi Hlo Hrest.
  pose proof (Byte.to_N_bounded b) as Hb.
  pose proof (Byte.to_N_bounded b') as Hb'.
  apply hex_digit_inj in Hhi;
    [| apply N.Div0.div_lt_upper_bound; lia
     | apply N.Div0.div_lt_upper_bound; lia ].
  apply hex_digit_inj in Hlo; [| apply N.mod_lt; lia | apply N.mod_lt; lia ].
  assert (Hn : Byte.to_N b = Byte.to_N b').
  { rewrite (N.div_mod (Byte.to_N b) 16), (N.div_mod (Byte.to_N b') 16) by lia.
    now rewrite Hhi, Hlo. }
  split; [|exact Hrest].
  pose proof (Byte.of_to_N b) as E. rewrite Hn, Byte.of_to_N in E.
  now injection E.
Qed.

(** The hexadecimal text determines the bytes: two buffers with the same
    text are the same buffer, so tokens collide only where the random
    bytes themselves do. *)
Theorem toString_hex_injective (buf buf' : list byte) :
  toString_hex buf = toString_hex buf' -> buf = buf'.
Proof.
  revert buf'. induction buf as [|b buf IH]; intros [|b' buf'] H.
  - reflexivity.
  - discriminate H.
  - discriminate H.
  - change (hex_of_byte b (toString_hex buf)
            = hex_of_byte b' (toString_hex buf')) in H.
    apply hex_of_byte_inj in H as [-> H]. f_equal. now apply IH.
Qed.

Lemma toString_hex_injective_witness :
  toString_hex (random_buffer healthy [] 2) = toString_hex [x0b; x30]
  /\ random_buffer healthy [] 2 = [x0b; x30].
Proof.
  split; [reflexivity|].
  apply (toString_hex_injective (random_buffer healthy [] 2) [x0b; x30]).
  reflexivity.
Defined.

(** ** Pool manager, continued *)

(** [open()] on a closed driver checks the user name first and the
    connect string second, by truthiness: a missing or empty value is
    refused with the corresponding message.  The refusal happens before
    anything is called, so state and trace are untouched.  The password
    is not checked. *)
Theorem open_rejects_incomplete_config (w : World) (s : St) :
  _isOpened (this s) = false ->
  truthy (_dbUser (this s)) && truthy (_dbConnectionString (this s)) = false ->
  open w s
  = (Err (Thrown (if truthy (_dbUser (this s))
                  then "You must set connect string before open database"
                  else "You must set user's name before open database")), s).
Proof.
  destruct s as [d tr]. simpl. intros Hclosed Hcfg.
  unfold_methods. simpl. rewrite Hclosed. simpl.
  destruct (truthy (_dbUser d)); simpl in *; [|reflexivity].
  rewrite Hcfg. reflexivity.
Qed.

Lemma open_rejects_incomplete_config_witness :
  open healthy nameless_driver
  = (Err (Thrown "You must set user's name before open database"),
     nameless_driver).
Proof.
  apply (open_rejects_incomplete_config healthy nameless_driver); reflexivity.
Defined.

(** When [createPool] is rejected, [open()] passes the rejection on and
    leaves the driver closed and without the pool, so the next [open()]
    asks for a pool again, with the same credentials. *)
Theorem open_rejected_by_createPool (w : World) (s : St) (e : Error) :
  _isOpened (this s) = false ->
  truthy (_dbUser (this s)) = true ->
  truthy (_dbConnectionString (this s)) = true ->
  let ev := EvCreatePool (_dbUser (this s)) (_dbPassword (this s))
              (_dbConnectionString (this s)) in
  createPool_out w (trace s) (_dbUser (this s)) (_dbPassword (this s))
    (_dbConnectionString (this s)) = Err e ->
  open w s = (Err e, mkSt (this s) (trace s ++ [ev]))
  /\ new_events (mkSt (this s) (trace s ++ [ev]))
       (snd (open w (mkSt (this s) (trace s ++ [ev])))) = [ev].
Proof.
  destruct s as [d tr]. simpl. intros Hclosed Huser Hcs Hrej.
  unfold_methods. simpl. rewrite Hclosed, Huser, Hcs. simpl.
  rewrite Hrej. split; [reflexivity|].
  step; now erewrite new_events_app by reflexivity.
Qed.

Lemma open_rejected_by_createPool_witness :
  open no_listener fresh_driver
  = (Err ORA_12541,
     mkSt (constructor sample_config)
       [EvCreatePool (JStr "scott") (JStr "tiger") (JStr "ORCL")]).
Proof.
  apply (open_rejected_by_createPool no_listener fresh_driver ORA_12541);
    reflexivity.
Defined.

(** A successful [close()] clears the flag but keeps the pool handle.  A
    second [close()] therefore calls [terminate] on the same, already
    terminated pool again, and an [open()] asks for a new pool. *)
Theorem close_keeps_the_pool_handle (w : World) (s : St) (p : PoolId) :
  _pool (this s) = Some p ->
  terminate_out w (trace s) p = Ok tt ->
  let s1 := snd (close w s) in
  fst (close w s) = Ok tt
  /\ _isOpened (this s1) = false
  /\ _pool (this s1) = Some p
  /\ new_events s1 (snd (close w s1)) = [EvTerminate p]
  /\ pool_creations (new_events s1 (snd (open w s1)))
     = (if truthy (_dbUser (this s)) && truthy (_dbConnectionString (this s))
        then 1 else 0)%nat.
Proof.
  destruct s as [d tr]. simpl. intros Hpool Hterm.
  unfold_methods. simpl. rewrite Hpool. simpl. rewrite Hterm. simpl.
  rewrite Hpool. simpl.
  repeat split.
  - step; now erewrite new_events_app by reflexivity.
  - repeat step;
      first [ now erewrite new_events_app by reflexivity
            | now erewrite new_events_app by (simpl; now rewrite app_nil_r) ].
Qed.

Lemma close_keeps_the_pool_handle_witness :
  _pool (this (snd (close healthy opened_driver))) = Some 1%nat
  /\ new_events (snd (close healthy opened_driver))
       (snd (close healthy (snd (close healthy opened_driver))))
     = [EvTerminate 1].
Proof.
  destruct (close_keeps_the_pool_handle healthy opened_driver 1%nat
              eq_refl eq_refl) as (_ & _ & H1 & H2 & _).
  split; [exact H1 | exact H2].
Defined.

(** ** What the methods do to the driver object *)

Ltac resolve_paramsLogin :=
  match goal with
  | |- context [paramsLogin ?d ?sid ?u ?pw ?co ?app ?lang ?l] =>
      let H := fresh in
      pose proof (paramsLogin_ok d sid u pw co app lang l) as H;
      destruct (paramsLogin d sid u pw co app lang l); [|discriminate H];
      clear H; simpl
  end.

Ltac all_runs :=
  unfold_methods; simpl; try resolve_paramsLogin; repeat step.

Lemma open_this (w : World) (s : St) :
  only_flag_and_pool (this s) (this (snd (open w s))).
Proof.
  destruct s as [d tr]. unfold only_flag_and_pool. all_runs; eauto.
Qed.

Lemma close_this (w : World) (s : St) :
  only_flag_and_pool (this s) (this (snd (close w s))).
Proof.
  destruct s as [d tr]. unfold only_flag_and_pool. all_runs; eauto.
Qed.

Lemma getConnection_this (w : World) (sid : jsval) (s : St) :
  only_flag_and_pool (this s) (this (snd (getConnection w sid s))).
Proof.
  destruct s as [d tr]. unfold only_flag_and_pool. all_runs; eauto.
Qed.

Lemma execute_this (w : World) (sid : jsval) (sql : string)
    (b : option Binds) (o : option ExecOptions) (c : option ConnId) (s : St) :
  only_flag_and_pool (this s) (this (snd (execute w sid sql b o c s))).
Proof.
  destruct s as [d tr]. unfold only_flag_and_pool.
  destruct c as [c|]; all_runs; eauto.
Qed.

Lemma logon_this (w : World) (u pw co app lang aOld : jsval) (s : St) :
  only_flag_and_pool (this s) (this (snd (logon w u pw co app lang aOld s))).
Proof.
  destruct s as [d tr]. unfold only_flag_and_pool. all_runs; eauto.
Qed.

Lemma logoff_this (w : World) (sid : jsval) (s : St) :
  only_flag_and_pool (this s) (this (snd (logoff w sid s))).
Proof.
  destruct s as [d tr]. unfold only_flag_and_pool. all_runs; eauto.
Qed.

Lemma only_flag_and_pool_consistent (d d' : Driver) :
  only_flag_and_pool d d' -> pool_consistent d = true -> pool_consistent d' = true.
Proof.
  intros [-> | [(p & ->) | ->]] H; [exact H | reflexivity | reflexivity].
Qed.

Lemma only_flag_and_pool_settings (d d' : Driver) :
  only_flag_and_pool d d' -> settings d' = settings d.
Proof. intros [-> | [(p & ->) | ->]]; reflexivity. Qed.

(** A driver fresh from its constructor has the flag [_isOpened] backed
    by a pool handle (the flag is false), and every method keeps it that
    way, whatever the collaborators answer: whenever [isOpened] is true
    there is a pool to lease from. *)
Theorem pool_consistent_is_kept (w : World) (s : St) (config : Config)
    (sid u pw co app lang aOld : jsval) (sql : string)
    (b : option Binds) (o : option ExecOptions) (c : option ConnId) :
  pool_consistent (this s) = true ->
  pool_consistent (constructor config) = true
  /\ pool_consistent (this (snd (open w s))) = true
  /\ pool_consistent (this (snd (close w s))) = true
  /\ pool_consistent (this (snd (getConnection w sid s))) = true
  /\ pool_consistent (this (snd (execute w sid sql b o c s))) = true
  /\ pool_consistent (this (snd (logon w u pw co app lang aOld s))) = true
  /\ pool_consistent (this (snd (logoff w sid s))) = true.
Proof.
  intros H. split; [reflexivity|].
  repeat split;
    (eapply only_flag_and_pool_consistent; [|exact H]);
    auto using open_this, close_this, getConnection_this, execute_this,
      logon_this, logoff_this.
Qed.

Lemma pool_consistent_is_kept_witness :
  pool_consistent (this fresh_driver) = true
  /\ pool_consistent
       (this (snd (logon failing_schema_switch (JStr "U1") (JStr "P1")
                     JUndefined JUndefined JUndefined JUndefined fresh_driver)))
     = true.
Proof.
  split; [reflexivity|].
  apply (pool_consistent_is_kept failing_schema_switch fresh_driver sample_config
           (JStr "tok") (JStr "U1") (JStr "P1") JUndefined JUndefined JUndefined
           JUndefined "select 1 from dual" None None None).
  reflexivity.
Defined.

(** No method writes to what the constructor took from the
    configuration: user, password, connect string, schema, the
    implementation and browser tags and the oracledb settings are the
    same after every call as before it. *)
Theorem methods_keep_the_settings (w : World) (s : St)
    (sid u pw co app lang aOld : jsval) (sql : string)
    (b : option Binds) (o : option ExecOptions) (c : option ConnId) :
  settings (this (snd (open w s))) = settings (this s)
  /\ settings (this (snd (close w s))) = settings (this s)
  /\ settings (this (snd (getConnection w sid s))) = settings (this s)
  /\ settings (this (snd (execute w sid sql b o c s))) = settings (this s)
  /\ settings (this (snd (logon w u pw co app lang aOld s))) = settings (this s)
  /\ settings (this (snd (logoff w sid s))) = settings (this s).
Proof.
  repeat split; apply only_flag_and_pool_settings;
    auto using open_this, close_this, getConnection_this, execute_this,
      logon_this, logoff_this.
Qed.

(** ** Statement executor, continued *)

(** Rewrites [new_events] of a run whose trace is at hand. *)
Ltac events_here :=
  rewrite <- ?app_assoc; simpl;
  first [ erewrite new_events_app by reflexivity
        | erewrite new_events_app by (simpl; symmetry; apply app_nil_r) ];
  simpl.

(** [getConnection] asks the pool for a connection at most once, exactly
    once when it returns one, and closes none: a connection whose schema
    switch or validation is rejected stays leased. *)
Theorem getConnection_leases_once_closes_never (w : World) (sid : jsval) (s : St) :
  let evs := new_events s (snd (getConnection w sid s)) in
  all_closes evs = 0%nat
  /\ match fst (getConnection w sid s) with
     | Ok _ => leases evs = 1%nat
     | Err _ => (leases evs <= 1)%nat
     end.
Proof.
  destruct s as [d tr]. all_runs; events_here; split; (reflexivity || lia).
Qed.

(** An internally scoped [execute] is [getConnection] followed by the
    externally scoped [execute] on the connection it returned, with
    [close()] in the [finally].  When [getConnection] is rejected, that
    rejection and the state it left are the outcome: the caller's
    statement is not sent. *)
Theorem execute_is_getConnection_then_execute (w : World) (sid : jsval)
    (sql : string) (b : option Binds) (o : option ExecOptions) (s : St) :
  match getConnection w sid s with
  | (Ok c, s1) =>
      execute w sid sql b o None s
      = try_finally (execute w sid sql b o (Some c)) (conn_close w c) s1
  | (Err e, s1) => execute w sid sql b o None s = (Err e, s1)
  end.
Proof.
  destruct (getConnection w sid s) as [[c|e] s1] eqn:Hget.
  - unfold execute. unfold bind at 1. rewrite Hget.
    unfold try_finally, bind, ret, conn_execute, conn_close, external. simpl.
    repeat step; reflexivity.
  - unfold execute. unfold bind at 1. now rewrite Hget.
Qed.

(** Leases and releases of an internally scoped [execute]: the pool is
    asked for a connection at most once, [close()] is called once if
    [getConnection] returned and not at all otherwise, and never more
    often than the pool was asked. *)
Theorem execute_lease_balance (w : World) (sid : jsval)
    (sql : string) (b : option Binds) (o : option ExecOptions) (s : St) :
  let evs := new_events s (snd (execute w sid sql b o None s)) in
  (leases evs <= 1)%nat
  /\ all_closes evs
     = match fst (getConnection w sid s) with Ok _ => 1%nat | Err _ => 0%nat end
  /\ (all_closes evs <= leases evs)%nat.
Proof.
  destruct s as [d tr]. all_runs; events_here; repeat split; lia.
Qed.

(** [logoff] by the outcome of the session binding.  A token that does
    not get through [getConnection] gives -1 in the state
    [getConnection] left: the logoff statement is not sent and nothing is
    closed.  Otherwise the logoff statement goes to the validated
    connection with the token as its only bind, and the connection is
    closed once. *)
Theorem logoff_by_binding (w : World) (sid : jsval) (s : St) :
  match getConnection w sid s with
  | (Err _, s1) => logoff w sid s = (Ok (-1), s1)
  | (Ok c, s1) =>
      exists status,
        logoff w sid s
        = (Ok status,
           mkSt (this s1)
             (trace s1 ++ [EvExecute c sqlLogoff (Some (Positional [sid])) (Some ∅);
                           EvClose c]))
        /\ (status = 0 \/ status = -1)
  end.
Proof.
  destruct s as [d tr]. all_runs.
  all: rewrite <- ?app_assoc; simpl; eauto.
Qed.

(** ** Session lifecycle manager, continued *)

(** A [logon] that resolves has done, in this order and on one and the
    same connection: drawn the token, created the pool exactly when the
    driver was not open (and not when it was), leased the connection,
    switched the schema, sent the logon statement with the binds built
    from its arguments, sent the informational query with no binds, and
    closed the connection.  Nothing else was called. *)
Theorem logon_success_order (w : World) (u pw co app lang aOld : jsval)
    (s s1 : St) (v : option Row) :
  logon w u pw co app lang aOld s = (Ok v, s1) ->
  let legacy := default_arg (JBool false) aOld in
  exists p c params,
    paramsLogin (this s) (toString_hex (random_buffer w (trace s) 24))
      u pw co app lang legacy = Ok params
    /\ new_events s s1
       = EvRandomBytes 24 ::
         (if _isOpened (this s) then []
          else [EvCreatePool (_dbUser (this s)) (_dbPassword (this s))
                  (_dbConnectionString (this s))]) ++
           [EvGetConnection p;
            EvExecute c (sqlSchema (this s)) None None;
            EvExecute c (sqlLogon legacy) (Some (Named params)) (Some ∅);
            EvExecute c sqlInfo (Some (Named ∅)) (Some ∅);
            EvClose c].
Proof.
  destruct s as [d tr]. intros Hrun legacy. subst legacy. revert Hrun.
  all_runs; intros Hrun; simplify_eq.
  all: events_here.
  all: do 3 eexists; split; reflexivity.
Qed.

Lemma logon_success_order_witness :
  exists p c params,
    new_events fresh_driver
      (snd (logon healthy (JStr "U1") (JStr "P1") (JStr "C1")
              JUndefined JUndefined JUndefined fresh_driver))
    = [EvRandomBytes 24;
       EvCreatePool (JStr "scott") (JStr "tiger") (JStr "ORCL");
       EvGetConnection p;
       EvExecute c "alter session set CURRENT_SCHEMA = PARUS" None None;
       EvExecute c (sqlLogon (JBool false)) (Some (Named params)) (Some ∅);
       EvExecute c sqlInfo (Some (Named ∅)) (Some ∅);
       EvClose c].
Proof.
  pose (run := logon healthy (JStr "U1") (JStr "P1") (JStr "C1")
                 JUndefined JUndefined JUndefined fresh_driver).
  pose (row := lodash_set
                 ({[ "NCOMPANY" := JNum 42; "SFULLUSERNAME" := JStr "U1";
                     "SAPPNAME" := JStr "Admin";
                     "SCOMPANYFULLNAME" := JStr "C1" ]} : Row)
                 "sessionID"
                 (JStr "0b30557a9fc4e90e33587da2c7ec11365b80a5caef14395e")).
  assert (Hrun : run = (Ok (Some row), snd run)) by (vm_compute; reflexivity).
  destruct (logon_success_order healthy (JStr "U1") (JStr "P1") (JStr "C1")
              JUndefined JUndefined JUndefined fresh_driver (snd run) (Some row)
              Hrun)
    as (p & c & params & _ & Hev).
  exists p, c, params. exact Hev.
Defined.

Lemma snoc_snoc {A} (h : list A) (x y : A) : (h ++ [x]) ++ [y] = h ++ [x; y].
Proof. now rewrite <- app_assoc. Qed.

(** What a resolved [logon] returns is the first row of the
    informational query with [sessionID] set to the token: the other
    columns are as the query returned them, a column of that name is
    overwritten, and further rows are dropped.  When the query returns no
    row at all, [logon] still resolves, with [undefined]. *)
Theorem logon_returns_first_row (w : World) (u pw co app lang aOld : jsval)
    (s s1 : St) (v : option Row) :
  logon w u pw co app lang aOld s = (Ok v, s1) ->
  exists h c r rs,
    trace s1 = h ++ [EvExecute c sqlInfo (Some (Named ∅)) (Some ∅); EvClose c]
    /\ execute_out w h c sqlInfo (Some (Named ∅)) (Some ∅) = Ok r
    /\ rows r = Some rs
    /\ match rs with
       | [] => v = None
       | row0 :: _ =>
           exists row,
             v = Some row
             /\ row !! "sessionID"
                = Some (JStr (toString_hex (random_buffer w (trace s) 24)))
             /\ forall k, k <> "sessionID" -> row !! k = row0 !! k
       end.
Proof.
  destruct s as [d tr]. intros Hrun. revert Hrun.
  all_runs; intros Hrun; simplify_eq.
  all: do 4 eexists.
  all: (split; [apply snoc_snoc|]).
  all: (split; [eassumption|]).
  all: (split; [eassumption|]).
  all: match goal with |- match ?l with _ => _ end => destruct l as [|row0 rest] end;
       simpl; [reflexivity|].
  all: eexists; split; [reflexivity|]; unfold lodash_set;
       split; [apply lookup_insert_eq|];
       intros k Hk; apply lookup_insert_ne; congruence.
Qed.

Lemma logon_returns_first_row_witness :
  fst (logon empty_rows (JStr "U1") (JStr "P1") (JStr "C1")
         JUndefined JUndefined JUndefined fresh_driver) = Ok None
  /\ exists h c r,
       execute_out empty_rows h c sqlInfo (Some (Named ∅)) (Some ∅) = Ok r
       /\ rows r = Some [].
Proof.
  pose (run := logon empty_rows (JStr "U1") (JStr "P1") (JStr "C1")
                 JUndefined JUndefined JUndefined fresh_driver).
  assert (Hrun : run = (Ok None, snd run)) by (vm_compute; reflexivity).
  split; [vm_compute; reflexivity|].
  destruct (logon_returns_first_row empty_rows (JStr "U1") (JStr "P1") (JStr "C1")
              JUndefined JUndefined JUndefined fresh_driver (snd run) None Hrun)
    as (h & c & r & rs & _ & Hinfo & Hrows & Hv).
  destruct rs as [|row0 rest].
  - exists h, c, r. split; [exact Hinfo | exact Hrows].
  - destruct Hv as (row & Hv & _). discriminate Hv.
Defined.

(** A rejected logon statement (wrong password, unknown company): the
    informational query is not sent, the connection is closed, and the
    statement's error is what [logon] is rejected with, unless [close()]
    is rejected too.  No token reaches the caller. *)
Theorem logon_statement_rejected (w : World) (u pw co app lang aOld : jsval)
    (s : St) (p : PoolId) (c : ConnId) (r0 : ExecResult) (e : Error)
    (params : OraSqlParams) :
  _isOpened (this s) = true ->
  _pool (this s) = Some p ->
  getConnection_out w (trace s ++ [EvRandomBytes 24]) p = Ok c ->
  let legacy := default_arg (JBool false) aOld in
  let schema_event := EvExecute c (sqlSchema (this s)) None None in
  let logon_event := EvExecute c (sqlLogon legacy) (Some (Named params)) (Some ∅) in
  execute_out w (trace s ++ [EvRandomBytes 24; EvGetConnection p]) c
    (sqlSchema (this s)) None None = Ok r0 ->
  paramsLogin (this s) (toString_hex (random_buffer w (trace s) 24))
    u pw co app lang legacy = Ok params ->
  execute_out w (trace s ++ [EvRandomBytes 24; EvGetConnection p; schema_event]) c
    (sqlLogon legacy) (Some (Named params)) (Some ∅) = Err e ->
  logon w u pw co app lang aOld s
  = (match close_out w (trace s ++ [EvRandomBytes 24; EvGetConnection p;
                                    schema_event; logon_event]) c with
     | Ok _ => Err e
     | Err e' => Err e'
     end,
     mkSt (this s)
       (trace s ++ [EvRandomBytes 24; EvGetConnection p; schema_event;
                    logon_event; EvClose c])).
Proof.
  destruct s as [d tr]. simpl.
  intros Hopen Hpool Hlease Hschema Hparams Hlogon.
  unfold_methods. simpl in *. rewrite Hparams. simpl.
  rewrite Hopen. simpl. rewrite Hpool. simpl. rewrite Hlease. simpl.
  rewrite <- ?app_assoc. simpl. rewrite Hschema. simpl.
  rewrite <- ?app_assoc. simpl. rewrite Hlogon. simpl.
  rewrite <- ?app_assoc. simpl.
  step; reflexivity.
Qed.

Lemma logon_statement_rejected_witness :
  fst (logon bad_credentials (JStr "U1") (JStr "wrong") JUndefined JUndefined
         JUndefined JUndefined opened_driver) = Err ORA_20103
  /\ all_closes
       (new_events opened_driver
          (snd (logon bad_credentials (JStr "U1") (JStr "wrong") JUndefined
                  JUndefined JUndefined JUndefined opened_driver))) = 1%nat.
Proof.
  destruct (paramsLogin (this opened_driver)
              (toString_hex (random_buffer bad_credentials (trace opened_driver) 24))
              (JStr "U1") (JStr "wrong") JUndefined JUndefined JUndefined
              (default_arg (JBool false) JUndefined)) as [params|e] eqn:Hparams;
    [|vm_compute in Hparams; discriminate Hparams].
  pose proof (logon_statement_rejected bad_credentials (JStr "U1") (JStr "wrong")
                JUndefined JUndefined JUndefined JUndefined opened_driver
                1%nat 7%nat no_result ORA_20103 params
                eq_refl eq_refl eq_refl eq_refl Hparams eq_refl) as Hrun.
  rewrite Hrun. split; [reflexivity|].
  simpl snd. erewrite new_events_app by reflexivity. reflexivity.
Defined.

(** An informational query whose result has no [rows] property makes
    [logon] fail on [.rows[0]] with the runtime's TypeError, after the
    logon statement has succeeded on the server; the connection is
    closed all the same. *)
Theorem logon_without_rows_is_a_TypeError (w : World)
    (u pw co app lang aOld : jsval)
    (s : St) (p : PoolId) (c : ConnId) (r0 r1 r : ExecResult)
    (params : OraSqlParams) :
  _isOpened (this s) = true ->
  _pool (this s) = Some p ->
  getConnection_out w (trace s ++ [EvRandomBytes 24]) p = Ok c ->
  let legacy := default_arg (JBool false) aOld in
  let schema_event := EvExecute c (sqlSchema (this s)) None None in
  let logon_event := EvExecute c (sqlLogon legacy) (Some (Named params)) (Some ∅) in
  let info_event := EvExecute c sqlInfo (Some (Named ∅)) (Some ∅) in
  execute_out w (trace s ++ [EvRandomBytes 24; EvGetConnection p]) c
    (sqlSchema (this s)) None None = Ok r0 ->
  paramsLogin (this s) (toString_hex (random_buffer w (trace s) 24))
    u pw co app lang legacy = Ok params ->
  execute_out w (trace s ++ [EvRandomBytes 24; EvGetConnection p; schema_event]) c
    (sqlLogon legacy) (Some (Named params)) (Some ∅) = Ok r1 ->
  execute_out w (trace s ++ [EvRandomBytes 24; EvGetConnection p; schema_event;
                             logon_event]) c
    sqlInfo (Some (Named ∅)) (Some ∅) = Ok r ->
  rows r = None ->
  logon w u pw co app lang aOld s
  = (match close_out w (trace s ++ [EvRandomBytes 24; EvGetConnection p;
                                    schema_event; logon_event; info_event]) c with
     | Ok _ => Err (TypeError "Cannot read property '0' of undefined")
     | Err e' => Err e'
     end,
     mkSt (this s)
       (trace s ++ [EvRandomBytes 24; EvGetConnection p; schema_event;
                    logon_event; info_event; EvClose c])).
Proof.
  destruct s as [d tr]. simpl.
  intros Hopen Hpool Hlease Hschema Hparams Hlogon Hinfo Hrows.
  unfold_methods. simpl in *. rewrite Hparams. simpl.
  rewrite Hopen. simpl. rewrite Hpool. simpl. rewrite Hlease. simpl.
  rewrite <- ?app_assoc. simpl. rewrite Hschema. simpl.
  rewrite <- ?app_assoc. simpl. rewrite Hlogon. simpl.
  rewrite <- ?app_assoc. simpl. rewrite Hinfo. simpl. rewrite Hrows. simpl.
  rewrite <- ?app_assoc. simpl.
  step; reflexivity.
Qed.

Lemma logon_without_rows_is_a_TypeError_witness :
  fst (logon rowless (JStr "U1") (JStr "P1") JUndefined JUndefined
         JUndefined JUndefined opened_driver)
  = Err (TypeError "Cannot read property '0' of undefined").
Proof.
  destruct (paramsLogin (this opened_driver)
              (toString_hex (random_buffer rowless (trace opened_driver) 24))
              (JStr "U1") (JStr "P1") JUndefined JUndefined JUndefined
              (default_arg (JBool false) JUndefined)) as [params|e] eqn:Hparams;
    [|vm_compute in Hparams; discriminate Hparams].
  pose proof (logon_without_rows_is_a_TypeError rowless (JStr "U1") (JStr "P1")
                JUndefined JUndefined JUndefined JUndefined opened_driver
                1%nat 7%nat no_result no_result no_result params
                eq_refl eq_refl eq_refl eq_refl Hparams eq_refl eq_refl eq_refl)
    as Hrun.
  rewrite Hrun. reflexivity.
Defined.

(** Leases and releases of [logon]: the pool is asked for a connection
    at most once and [close()] is never called more often than that.
    The two numbers differ only for a rejected [logon] whose last action
    was the lease request itself (the pool gave no connection) or the
    schema switch (the one statement sent without binds; the connection
    then stays leased). *)
Theorem logon_lease_balance (w : World) (u pw co app lang aOld : jsval) (s : St) :
  let run := logon w u pw co app lang aOld s in
  let evs := new_events s (snd run) in
  (leases evs <= 1)%nat
  /\ (all_closes evs <= leases evs)%nat
  /\ (all_closes evs = leases evs
      \/ exists e, fst run = Err e
                   /\ ((exists p, last evs = Some (EvGetConnection p))
                       \/ exists c sql, last evs = Some (EvExecute c sql None None))).
Proof.
  destruct s as [d tr]. cbv zeta.
  destruct (logon w u pw co app lang aOld (mkSt d tr)) as [r s1] eqn:Hrun.
  cbn [fst snd]. revert Hrun.
  all_runs; intros Hrun; simplify_eq; events_here.
  all: split; [lia|]; split; [lia|].
  all: first [ left; reflexivity
             | right; eexists; split; [reflexivity|]; left; eexists; reflexivity
             | right; eexists; split; [reflexivity|]; right; do 2 eexists;
               reflexivity ].
Qed.

(** With an incomplete configuration the lazy [open()] stops every
    method that needs a connection before the pool is touched:
    [getConnection] and [execute] are rejected with the configuration
    message and leave no trace, [logon] is rejected with it after the
    token was drawn, and [logoff] reports -1. *)
Theorem lazy_open_failure_propagates (w : World) (s : St)
    (sid u pw co app lang aOld : jsval) (sql : string)
    (b : option Binds) (o : option ExecOptions) :
  _isOpened (this s) = false ->
  truthy (_dbUser (this s)) && truthy (_dbConnectionString (this s)) = false ->
  let e := Thrown (if truthy (_dbUser (this s))
                   then "You must set connect string before open database"
                   else "You must set user's name before open database") in
  getConnection w sid s = (Err e, s)
  /\ execute w sid sql b o None s = (Err e, s)
  /\ logoff w sid s = (Ok (-1), s)
  /\ logon w u pw co app lang aOld s
     = (Err e, mkSt (this s) (trace s ++ [EvRandomBytes 24])).
Proof.
  destruct s as [[db impl opened user pass cs sch br pool] tr]. simpl.
  intros -> Hcfg.
  unfold_methods. simpl in *. resolve_paramsLogin.
  destruct (truthy user); simpl in *; [rewrite !Hcfg; simpl|]; repeat split.
Qed.

Lemma lazy_open_failure_propagates_witness :
  logoff healthy (JStr "tok") nameless_driver = (Ok (-1), nameless_driver)
  /\ logon healthy (JStr "U1") (JStr "P1") JUndefined JUndefined JUndefined
       JUndefined nameless_driver
     = (Err (Thrown "You must set user's name before open database"),
        mkSt (this nameless_driver) [EvRandomBytes 24]).
Proof.
  destruct (lazy_open_failure_propagates healthy nameless_driver
              (JStr "tok") (JStr "U1") (JStr "P1") JUndefined JUndefined
              JUndefined JUndefined "select 1 from dual" None None
              eq_refl eq_refl) as (_ & _ & Hoff & Hon).
  split; [exact Hoff | exact Hon].
Defined.

(** A call that got a connection leaves the pool open: after a
    successful [getConnection], internally scoped [execute] or [logon],
    [isOpened] is true and the driver holds a pool. *)
Theorem success_leaves_the_pool_open (w : World) (s : St)
    (sid u pw co app lang aOld : jsval) (sql : string)
    (b : option Binds) (o : option ExecOptions) :
  (forall c s1, getConnection w sid s = (Ok c, s1) ->
                _isOpened (this s1) = true /\ is_Some (_pool (this s1)))
  /\ (forall r s1, execute w sid sql b o None s = (Ok r, s1) ->
                   _isOpened (this s1) = true /\ is_Some (_pool (this s1)))
  /\ (forall v s1, logon w u pw co app lang aOld s = (Ok v, s1) ->
                   _isOpened (this s1) = true /\ is_Some (_pool (this s1))).
Proof.
  destruct s as [d tr].
  repeat split; revert H; all_runs; intros H; simplify_eq; simpl; eauto.
Qed.

(** ** Witnesses for the forward readings above *)

Lemma getConnection_validation_rejected_witness :
  getConnection unknown_token (JStr "nope") opened_driver
  = (Err ORA_20001,
     mkSt (this opened_driver)
       (trace opened_driver
        ++ [EvGetConnection 1;
            EvExecute 7 (sqlSchema (this opened_driver)) None None;
            validate_event 7 (JStr "nope")])).
Proof.
  apply (getConnection_validation_rejected unknown_token (JStr "nope")
           opened_driver 1%nat 7%nat no_result ORA_20001); reflexivity.
Defined.

Lemma logon_releases_past_schema_switch_witness :
  last (new_events opened_driver
          (snd (logon bad_credentials (JStr "U1") (JStr "wrong") JUndefined
                  JUndefined JUndefined JUndefined opened_driver)))
  = Some (EvClose 7)
  /\ all_closes
       (new_events opened_driver
          (snd (logon bad_credentials (JStr "U1") (JStr "wrong") JUndefined
                  JUndefined JUndefined JUndefined opened_driver))) = 1%nat.
Proof.
  destruct (logon_releases_past_schema_switch bad_credentials (JStr "U1")
              (JStr "wrong") JUndefined JUndefined JUndefined JUndefined
              opened_driver 1%nat 7%nat no_result
              eq_refl eq_refl eq_refl eq_refl) as (Hlast & _ & Hall).
  split; [exact Hlast | exact Hall].
Defined.
